(** * The GBIF occurrence loader: record validation and batch ingestion

    A shallow embedding of [scripts/download_GBIF.py] (the field and date
    normalizers, the record validation loop and the batch insert loop) and of
    the coordinate filter of [scripts/process_haedat.py], together with the
    properties of the specification that concern them.

    Python values are embedded as follows.
    - [str] is [string]; every character stands for the code point of the same
      number, so the strings covered are those over code points 0..255.
    - [int] is [Z]; [float] is a binary64 value, [spec_float] at precision 53
      and maximal exponent 1024.
    - Code that may raise returns a [result]; [try]/[except] inspects it.
    - The interpreter and library functions the scripts call ([str], [float],
      [int], [pandas.isna], [datetime.fromisoformat]) are modelled on
      CPython 3.11. *)

From Stdlib Require Import ZArith Ascii Bool Lia SpecFloat.
From stdpp Require Import base option list strings gmap.

Local Open Scope Z_scope.

(** ** Exceptions and results *)

Inductive pyexn : Type :=
  | ValueError
  | TypeError
  | OverflowError
  | StoreError (msg : string).

Inductive result (A : Type) : Type :=
  | Ok (a : A)
  | Raise (e : pyexn).
Global Arguments Ok {A} a.
Global Arguments Raise {A} e.

Global Instance result_ret : MRet result := λ A a, Ok a.
Global Instance result_bind : MBind result := λ A B f m,
  match m with
  | Ok a => f a
  | Raise e => Raise e
  end.
Global Instance result_fmap : FMap result := λ A B f m,
  match m with
  | Ok a => Ok (f a)
  | Raise e => Raise e
  end.

(** [try: body except (classes): handler]. *)
Definition try_except {A} (body : result A) (catches : pyexn → bool)
    (handler : result A) : result A :=
  match body with
  | Ok a => Ok a
  | Raise e => if catches e then handler else Raise e
  end.

(** The clause [except (ValueError, TypeError)]. *)
Definition ValueError_or_TypeError (e : pyexn) : bool :=
  match e with
  | ValueError | TypeError => true
  | _ => false
  end.

(** ** Strings *)

Module Str.

Definition code (c : ascii) : Z := Z.of_N (N_of_ascii c).
Definition chr (n : Z) : ascii := ascii_of_N (Z.to_N n).

Fixpoint len (s : string) : nat :=
  match s with
  | EmptyString => O
  | String _ s' => S (len s')
  end.

(** [s[:n]] *)
Fixpoint take (n : nat) (s : string) : string :=
  match n, s with
  | S n', String c s' => String c (take n' s')
  | _, _ => EmptyString
  end.

(** [s[n:]] *)
Fixpoint drop (n : nat) (s : string) : string :=
  match n, s with
  | S n', String _ s' => drop n' s'
  | _, _ => s
  end.

(** [c in s], for a one-character [c]. *)
Fixpoint contains (c : ascii) (s : string) : bool :=
  match s with
  | EmptyString => false
  | String d s' => if Ascii.eqb d c then true else contains c s'
  end.

(** [s.split(c)[0]]: the text before the first [c], all of [s] when
    there is none. *)
Fixpoint split_head (c : ascii) (s : string) : string :=
  match s with
  | EmptyString => EmptyString
  | String d s' => if Ascii.eqb d c then EmptyString else String d (split_head c s')
  end.

(** [s.replace(c, r)], for a one-character [c]. *)
Fixpoint replace (c : ascii) (r : string) (s : string) : string :=
  match s with
  | EmptyString => EmptyString
  | String d s' =>
      if Ascii.eqb d c then r +:+ replace c r s' else String d (replace c r s')
  end.

(** [str.lower] on code points below 256: the upper-case letters are
    A..Z and U+00C0..U+00DE without the multiplication sign U+00D7. *)
Definition lower_char (c : ascii) : ascii :=
  let n := code c in
  if ((65 <=? n) && (n <=? 90)) || ((192 <=? n) && (n <=? 222) && negb (n =? 215))
  then chr (n + 32) else c.

Fixpoint lower (s : string) : string :=
  match s with
  | EmptyString => EmptyString
  | String c s' => String (lower_char c) (lower s')
  end.

(** [x in [s1, ..., sn]] *)
Definition mem (x : string) (l : list string) : bool :=
  existsb (String.eqb x) l.

Definition is_digit (c : ascii) : bool := (48 <=? code c) && (code c <=? 57).
Definition digit_val (c : ascii) : Z := code c - 48.

(** The characters [Py_ISSPACE] accepts. *)
Definition is_space (c : ascii) : bool :=
  ((9 <=? code c) && (code c <=? 13)) || (code c =? 32).

Fixpoint lstrip (s : string) : string :=
  match s with
  | String c s' => if is_space c then lstrip s' else s
  | EmptyString => EmptyString
  end.

Definition rstrip (s : string) : string := String.rev (lstrip (String.rev s)).

Fixpoint map (f : ascii → ascii) (s : string) : string :=
  match s with
  | EmptyString => EmptyString
  | String c s' => String (f c) (map f s')
  end.

Fixpoint all (p : ascii → bool) (s : string) : bool :=
  match s with
  | EmptyString => true
  | String c s' => p c && all p s'
  end.

(** The longest prefix of characters satisfying [p], and the rest. *)
Fixpoint span (p : ascii → bool) (s : string) : string * string :=
  match s with
  | String c s' =>
      if p c then let '(a, b) := span p s' in (String c a, b) else (EmptyString, s)
  | EmptyString => (EmptyString, EmptyString)
  end.

(** The value of a string of decimal digits, read left to right. *)
Fixpoint digits_val_from (acc : Z) (s : string) : Z :=
  match s with
  | EmptyString => acc
  | String c s' => digits_val_from (10 * acc + digit_val c) s'
  end.
Definition digits_val (s : string) : Z := digits_val_from 0 s.

(** Decimal digits of a natural number. *)
Fixpoint decimal_go (fuel : nat) (n : Z) (acc : string) : string :=
  match fuel with
  | O => acc
  | S fuel' =>
      let acc' := String (chr (48 + n mod 10)) acc in
      if n <? 10 then acc' else decimal_go fuel' (n / 10) acc'
  end.
Definition decimal (n : Z) : string :=
  decimal_go (S (Z.to_nat (Z.log2 n))) n EmptyString.

Fixpoint repeat (c : ascii) (n : nat) : string :=
  match n with
  | O => EmptyString
  | S n' => String c (repeat c n')
  end.

End Str.


(** ** Python values and the built-in conversions *)

(** What a cell of a raw record can hold: [None], a float (NaN included),
    an int, or a str. *)
Inductive pyval : Type :=
  | PyNone
  | PyFloat (f : spec_float)
  | PyInt (n : Z)
  | PyStr (s : string).

Module Py.

(** binary64 *)
Definition prec : Z := 53.
Definition emax : Z := 1024.

Definition float_of_Z (n : Z) : spec_float := binary_normalize prec emax n 0 false.

(** Number of decimal digits of a positive integer. *)
Fixpoint ndigits_go (fuel : nat) (n : Z) : Z :=
  match fuel with
  | O => 0
  | S fuel' => if n <? 10 then 1 else 1 + ndigits_go fuel' (n / 10)
  end.
Definition ndigits (n : Z) : Z := ndigits_go (S (Z.to_nat (Z.log2 n))) n.

(** *** [float] *)

(** [float(n)] for an int: rounded to nearest-even, [OverflowError] when the
    rounded value is not finite. *)
Definition float_of_int (n : Z) : result spec_float :=
  match float_of_Z n with
  | S754_infinity _ => Raise OverflowError
  | f => Ok f
  end.

(** The binary64 nearest to [(-1)^neg * m * 10^e], as [strtod] computes it.
    For a negative [e] the quotient is taken to 1100 binary places, beyond
    every rounding boundary of binary64, with a sticky bit for the rest. *)
Definition float_of_decimal (neg : bool) (m e : Z) : spec_float :=
  if m =? 0 then S754_zero neg
  else if 400 <? ndigits m + e then S754_infinity neg
  else if ndigits m + e <? -400 then S754_zero neg
  else if 0 <=? e then
    binary_normalize prec emax (cond_Zopp neg (m * 10 ^ e)) 0 neg
  else
    let d := 10 ^ (- e) in
    let n := m * 2 ^ 1100 in
    let sticky := if n mod d =? 0 then 0 else 1 in
    binary_normalize prec emax (cond_Zopp neg (2 * (n / d) + sticky)) (-1101) neg.

(** A leading sign. *)
Definition take_sign (s : string) : bool * string :=
  match s with
  | String "-" s' => (true, s')
  | String "+" s' => (false, s')
  | _ => (false, s)
  end.

(** The exponent part of a decimal literal: empty, or [e]/[E], an optional
    sign and at least one digit. *)
Definition parse_exponent (s : string) : option Z :=
  match s with
  | EmptyString => Some 0
  | String c s' =>
      if Ascii.eqb c "e" || Ascii.eqb c "E" then
        let '(neg, ds) := take_sign s' in
        match ds with
        | EmptyString => None
        | _ => if Str.all Str.is_digit ds then Some (cond_Zopp neg (Str.digits_val ds)) else None
        end
      else None
  end.

(** A float literal without surrounding space or underscores:
    [[sign] (inf | infinity | nan)], in any case, or
    [[sign] digits [. digits] [exponent]] with a digit before or after the
    point. *)
Definition parse_float_literal (s : string) : option spec_float :=
  let '(neg, body) := take_sign s in
  if Str.mem (Str.lower body) ["inf"; "infinity"] then Some (S754_infinity neg)
  else if String.eqb (Str.lower body) "nan" then Some S754_nan
  else
    let '(ip, r1) := Str.span Str.is_digit body in
    let '(fp, r2) :=
      match r1 with
      | String "." r => Str.span Str.is_digit r
      | _ => (EmptyString, r1)
      end in
    match ip +:+ fp with
    | EmptyString => None
    | ds =>
        match parse_exponent r2 with
        | Some e => Some (float_of_decimal neg (Str.digits_val ds) (e - Z.of_nat (Str.len fp)))
        | None => None
        end
    end.

(** Underscores of a numeric literal are dropped; each must stand between
    two digits. [prev] is the character before [s]. *)
Fixpoint drop_underscores (prev : ascii) (s : string) : option string :=
  match s with
  | EmptyString => if Ascii.eqb prev "_" then None else Some EmptyString
  | String c s' =>
      if Ascii.eqb c "_" then
        if Str.is_digit prev then drop_underscores c s' else None
      else if Ascii.eqb prev "_" && negb (Str.is_digit c) then None
      else String c <$> drop_underscores c s'
  end.

(** Before a number is read, U+0085 and U+00A0 count as spaces. *)
Definition space_to_ascii (c : ascii) : ascii :=
  if (Str.code c =? 133) || (Str.code c =? 160) then " "%char else c.

Definition strip_number (s : string) : string :=
  Str.rstrip (Str.lstrip (Str.map space_to_ascii s)).

(** [float(s)] for a str. *)
Definition float_of_str (s : string) : result spec_float :=
  match drop_underscores "000" (strip_number s) ≫= parse_float_literal with
  | Some f => Ok f
  | None => Raise ValueError
  end.

(** *** [int] *)

(** [int(f)] for a float: truncation; NaN and the infinities raise. *)
Definition int_of_float (f : spec_float) : result Z :=
  match f with
  | S754_nan => Raise ValueError
  | S754_infinity _ => Raise OverflowError
  | S754_zero _ => Ok 0
  | S754_finite s m e => Ok (cond_Zopp s (Z.shiftl (Zpos m) e))
  end.

(** [sys.get_int_max_str_digits()], the default. *)
Definition int_max_str_digits : nat := 4300.

(** [int(s)] for a str: an optional sign and decimal digits, single
    underscores between digits allowed, at most 4300 digits. *)
Definition int_of_str (s : string) : result Z :=
  let '(neg, body) := take_sign (strip_number s) in
  match drop_underscores "000" body with
  | Some (String c ds' as ds) =>
      if Str.all Str.is_digit ds && (Str.len ds <=? int_max_str_digits)%nat
      then Ok (cond_Zopp neg (Str.digits_val ds))
      else Raise ValueError
  | _ => Raise ValueError
  end.

(** *** [str] *)

(** The shortest decimal that reads back as the float [m * 2^e]: the integer
    of its digits and the power of ten it is scaled by. With the bounds of
    the rounding interval of the float over the common denominator [denom], a
    decimal [c * 10^k] is tried for 1, 2, ... 17 digits; of two decimals of
    one length inside the interval the nearer is taken. *)
Section Shortest.
Variables (m : positive) (e : Z).

Definition scale : Z := 2 ^ Z.max (e - 2) 0.
Definition denom : Z := 2 ^ Z.max (2 - e) 0.
Definition value_num : Z := 4 * Zpos m * scale.
Definition high_num : Z := (4 * Zpos m + 2) * scale.
Definition low_num : Z :=
  (4 * Zpos m - (if (Zpos m =? 2 ^ (prec - 1)) && (3 - emax - prec <? e) then 1 else 2)) * scale.

(** [floor (log10 (value_num / denom))] *)
Definition log10_floor : Z :=
  if denom <=? value_num then ndigits (value_num / denom) - 1 else - ndigits (denom / value_num).

Definition inside (k c : Z) : bool :=
  let y := c * 10 ^ Z.max k 0 * denom in
  let s := 10 ^ Z.max (- k) 0 in
  if Z.even (Zpos m) then (low_num * s <=? y) && (y <=? high_num * s)
  else (low_num * s <? y) && (y <? high_num * s).

Definition candidate (k : Z) : option Z :=
  let s := 10 ^ Z.max (- k) 0 in
  let u := 10 ^ Z.max k 0 * denom in
  let a := (value_num * s) / u in
  let b := a + 1 in
  match inside k a, inside k b with
  | true, true =>
      match (value_num * s - a * u) ?= (b * u - value_num * s) with
      | Lt => Some a
      | Gt => Some b
      | Eq => Some (if Z.even a then a else b)
      end
  | true, false => Some a
  | false, true => Some b
  | false, false => None
  end.

Fixpoint shortest_from (fuel : nat) (n : Z) : Z * Z :=
  let k := log10_floor - n + 1 in
  match fuel with
  | O => ((value_num * 10 ^ Z.max (- k) 0) / (10 ^ Z.max k 0 * denom), k)
  | S fuel' =>
      match candidate k with
      | Some c => (c, k)
      | None => shortest_from fuel' (n + 1)
      end
  end.

Definition shortest : Z * Z := shortest_from 17 1.

End Shortest.

Fixpoint strip_zeros_rev (s : string) : string :=
  match s with
  | String "0" s' => strip_zeros_rev s'
  | _ => s
  end.

(** [repr] of a positive finite float from its shortest digits [ds] and the
    position [decpt] of the decimal point: exponent notation when
    [decpt <= -4] or [decpt > 16]. *)
Definition format_repr (ds : string) (decpt : Z) : string :=
  if (decpt <=? -4) || (16 <? decpt) then
    let x := decpt - 1 in
    let xs := Str.decimal (Z.abs x) in
    Str.take 1 ds +:+ (match Str.drop 1 ds with EmptyString => EmptyString | r => String "." r end)
    +:+ "e" +:+ (if x <? 0 then "-" else "+")
    +:+ (if (Str.len xs <? 2)%nat then String "0" xs else xs)
  else if decpt <=? 0 then
    "0." +:+ Str.repeat "0" (Z.to_nat (- decpt)) +:+ ds
  else if Z.of_nat (Str.len ds) <=? decpt then
    ds +:+ Str.repeat "0" (Z.to_nat decpt - Str.len ds) +:+ ".0"
  else
    Str.take (Z.to_nat decpt) ds +:+ "." +:+ Str.drop (Z.to_nat decpt) ds.

(** [repr(f)] for a float. *)
Definition float_repr (f : spec_float) : string :=
  match f with
  | S754_nan => "nan"
  | S754_infinity s => if s then "-inf" else "inf"
  | S754_zero s => if s then "-0.0" else "0.0"
  | S754_finite s m e =>
      let '(c, k) := shortest m e in
      let all_digits := Str.decimal c in
      (if s then "-" else "") +:+
      format_repr (String.rev (strip_zeros_rev (String.rev all_digits)))
                  (k + Z.of_nat (Str.len all_digits))
  end.

(** [str(n)] for an int: more than 4300 digits raise [ValueError]. *)
Definition int_str (n : Z) : result string :=
  let ds := Str.decimal (Z.abs n) in
  if (Str.len ds <=? int_max_str_digits)%nat
  then Ok ((if n <? 0 then "-" else "") +:+ ds)
  else Raise ValueError.

(** [str(v)] *)
Definition str (v : pyval) : result string :=
  match v with
  | PyNone => Ok "None"
  | PyFloat f => Ok (float_repr f)
  | PyInt n => int_str n
  | PyStr s => Ok s
  end.

(** [float(v)] *)
Definition float (v : pyval) : result pyval :=
  match v with
  | PyNone => Raise TypeError
  | PyFloat f => Ok (PyFloat f)
  | PyInt n => PyFloat <$> float_of_int n
  | PyStr s => PyFloat <$> float_of_str s
  end.

(** [int(v)] *)
Definition int (v : pyval) : result pyval :=
  match v with
  | PyNone => Raise TypeError
  | PyFloat f => PyInt <$> int_of_float f
  | PyInt n => Ok (PyInt n)
  | PyStr s => PyInt <$> int_of_str s
  end.

(** [pandas.isna(v)] for a scalar. *)
Definition isna (v : pyval) : bool :=
  match v with
  | PyNone | PyFloat S754_nan => true
  | _ => false
  end.

End Py.


(** ** [datetime.fromisoformat] *)

(** The parser works, as the C implementation does, on the UTF-8 encoding of
    its argument, read as a NUL-terminated buffer. *)
Module Datetime.

Record datetime : Type := {
  year : Z; month : Z; day : Z;
  hour : Z; minute : Z; second : Z; microsecond : Z;
  (** offset from UTC in microseconds, [None] for a naive value *)
  utcoffset : option Z
}.

Fixpoint utf8 (s : string) : string :=
  match s with
  | EmptyString => EmptyString
  | String c s' =>
      let n := Str.code c in
      if n <? 128 then String c (utf8 s')
      else String (Str.chr (192 + n / 64)) (String (Str.chr (128 + n mod 64)) (utf8 s'))
  end.

Fixpoint byte_from (b : string) (p : nat) : Z :=
  match b, p with
  | String c _, O => Str.code c
  | String _ b', S p' => byte_from b' p'
  | EmptyString, _ => 0
  end.

(** The byte at position [p]; [0] from the terminator on. *)
Definition byte_at (b : string) (p : Z) : Z := byte_from b (Z.to_nat p).

Definition is_digit (c : Z) : bool := (48 <=? c) && (c <=? 57).

(** Exactly [n] digits at [p]. *)
Fixpoint parse_digits_from (b : string) (p : Z) (n : nat) (acc : Z) : option Z :=
  match n with
  | O => Some acc
  | S n' =>
      let c := byte_at b p in
      if is_digit c then parse_digits_from b (p + 1) n' (10 * acc + (c - 48)) else None
  end.
Definition parse_digits (b : string) (p : Z) (n : nat) : option Z :=
  parse_digits_from b p n 0.

Fixpoint digit_run (s : string) : Z :=
  match s with
  | String c s' => if is_digit (Str.code c) then 1 + digit_run s' else 0
  | EmptyString => 0
  end.

(** The first position from [p] on that holds no digit. *)
Definition skip_digits (b : string) (p : Z) : Z :=
  p + digit_run (Str.drop (Z.to_nat p) b).

(** *** The calendar *)

Definition MINYEAR : Z := 1.
Definition MAXYEAR : Z := 9999.

Definition is_leap (y : Z) : bool :=
  (y mod 4 =? 0) && (negb (y mod 100 =? 0) || (y mod 400 =? 0)).

Definition DAYS_IN_MONTH : list Z := [31; 28; 31; 30; 31; 30; 31; 31; 30; 31; 30; 31].
Definition DAYS_BEFORE_MONTH : list Z := [0; 31; 59; 90; 120; 151; 181; 212; 243; 273; 304; 334].

Definition month_entry (table : list Z) (m : Z) : Z := nth (Z.to_nat (m - 1)) table 0.

Definition days_in_month (y m : Z) : Z :=
  if (m =? 2) && is_leap y then 29 else month_entry DAYS_IN_MONTH m.

Definition days_before_year (y : Z) : Z :=
  let y := y - 1 in y * 365 + y / 4 - y / 100 + y / 400.

Definition days_before_month (y m : Z) : Z :=
  month_entry DAYS_BEFORE_MONTH m + (if (2 <? m) && is_leap y then 1 else 0).

Definition ymd2ord (y m d : Z) : Z := days_before_year y + days_before_month y m + d.

Definition DI400Y : Z := days_before_year 401.
Definition DI100Y : Z := days_before_year 101.
Definition DI4Y : Z := days_before_year 5.

Definition ord2ymd (n : Z) : Z * Z * Z :=
  let n := n - 1 in
  let n400 := n / DI400Y in let n := n mod DI400Y in
  let n100 := n / DI100Y in let n := n mod DI100Y in
  let n4 := n / DI4Y in let n := n mod DI4Y in
  let n1 := n / 365 in let n := n mod 365 in
  let y := n400 * 400 + 1 + n100 * 100 + n4 * 4 + n1 in
  if (n1 =? 4) || (n100 =? 4) then (y - 1, 12, 31)
  else
    let leapyear := (n1 =? 3) && (negb (n4 =? 24) || (n100 =? 3)) in
    let m := (n + 50) / 32 in
    let preceding := month_entry DAYS_BEFORE_MONTH m + (if (2 <? m) && leapyear then 1 else 0) in
    if n <? preceding then
      let m := m - 1 in
      let preceding :=
        preceding - (month_entry DAYS_IN_MONTH m + (if (m =? 2) && leapyear then 1 else 0)) in
      (y, m, n - preceding + 1)
    else (y, m, n - preceding + 1).

Definition isoweek1monday (y : Z) : Z :=
  let firstday := ymd2ord y 1 1 in
  let firstweekday := (firstday + 6) mod 7 in
  let week1monday := firstday - firstweekday in
  if 3 <? firstweekday then week1monday + 7 else week1monday.

(** ISO year, week and weekday to year, month and day. *)
Definition isoweek_to_gregorian (y week d : Z) : option (Z * Z * Z) :=
  if negb ((MINYEAR <=? y) && (y <=? MAXYEAR)) then None
  else if
    negb ((0 <? week) && (week <? 53)) &&
    negb ((week =? 53) &&
          (let first_weekday := ymd2ord y 1 1 mod 7 in
           (first_weekday =? 4) || ((first_weekday =? 3) && is_leap y)))
  then None
  else if negb ((0 <? d) && (d <? 8)) then None
  else Some (ord2ymd (isoweek1monday y + ((week - 1) * 7 + (d - 1)))).

(** *** The date part *)

(** Where the date part ends, by the length [n] of the buffer and the
    characters at fixed positions. *)
Definition find_isoformat_datetime_separator (b : string) (n : Z) : option Z :=
  if n =? 7 then Some 7
  else if byte_at b 4 =? 45 then
    if byte_at b 5 =? 87 then
      if n <? 8 then None
      else if (8 <? n) && (byte_at b 8 =? 45) then
        if n =? 9 then None
        else if (10 <? n) && is_digit (byte_at b 10) then Some 8
        else Some 10
      else Some 8
    else Some 10
  else if byte_at b 4 =? 87 then
    let idx := skip_digits b 7 in
    if idx <? 9 then Some idx
    else if idx mod 2 =? 0 then Some 7
    else Some 8
  else Some 8.

(** [YYYY-MM-DD], [YYYYMMDD], [YYYY-Www[-D]] or [YYYYWww[D]] in the first
    [n] bytes. *)
Definition parse_isoformat_date (b : string) (n : Z) : option (Z * Z * Z) :=
  y ← parse_digits b 0 4;
  let uses_separator := byte_at b 4 =? 45 in
  let p := if uses_separator then 5 else 4 in
  if byte_at b p =? 87 then
    let p := p + 1 in
    week ← parse_digits b p 2;
    let p := p + 2 in
    if p <? n then
      if uses_separator && negb (byte_at b p =? 45) then None
      else
        d ← parse_digits b (if uses_separator then p + 1 else p) 1;
        isoweek_to_gregorian y week d
    else isoweek_to_gregorian y week 1
  else
    m ← parse_digits b p 2;
    let p := p + 2 in
    if uses_separator && negb (byte_at b p =? 45) then None
    else
      d ← parse_digits b (if uses_separator then p + 1 else p) 2;
      Some (y, m, d).

(** *** The time part *)

(** How the loop over hours, minutes and seconds ends: it returns, telling
    whether text is left at the stop, or it goes on to the fraction at [p]. *)
Inductive hms : Type :=
  | HmsReturn (vals : list Z) (text_left : bool)
  | HmsFraction (vals : list Z) (p : Z).

Fixpoint parse_hms (b : string) (stop : Z) (left : nat) (first has_separator : bool)
    (p : Z) (vals : list Z) : option hms :=
  match left with
  | O => Some (HmsFraction vals p)
  | S left' =>
      v ← parse_digits b p 2;
      let c := byte_at b (p + 2) in
      let p := p + 3 in
      let has_separator := if first then c =? 58 else has_separator in
      let vals := vals ++ [v] in
      if stop <=? p then Some (HmsReturn vals (negb (c =? 0)))
      else if has_separator && (c =? 58) then parse_hms b stop left' false has_separator p vals
      else if (c =? 46) || (c =? 44) then Some (HmsFraction vals p)
      else if negb has_separator then parse_hms b stop left' false has_separator (p - 1) vals
      else None
  end.

(** Hour, minute and second; the components not read are 0. *)
Definition hms_vals (vals : list Z) : list Z := take 3 (vals ++ [0; 0; 0]).

(** [HH[:MM[:SS[.ffffff]]]] or [HH[MM[SS[.ffffff]]]] between [start] and
    [stop]: hour, minute, second, microsecond, and whether text is left. *)
Definition parse_hh_mm_ss_ff (b : string) (start stop : Z) : option (list Z * bool) :=
  r ← parse_hms b stop 3 true true start [];
  match r with
  | HmsReturn vals text_left => Some (hms_vals vals ++ [0], text_left)
  | HmsFraction vals p =>
      let to_parse := Z.min (stop - p) 6 in
      us ← parse_digits b p (Z.to_nat to_parse);
      let q := skip_digits b (p + to_parse) in
      Some (hms_vals vals ++ [us * 10 ^ (6 - to_parse)], negb (byte_at b q =? 0))
  end.

Definition is_tz_mark (c : Z) : bool := (c =? 90) || (c =? 43) || (c =? 45).

Fixpoint tz_scan (s : string) : Z :=
  match s with
  | String c s' => if is_tz_mark (Str.code c) then 0 else 1 + tz_scan s'
  | EmptyString => 0
  end.

(** The time part from [start] to the end [n] of the buffer, with an
    optional [Z] or [+HH[:MM[:SS[.ffffff]]]] offset. *)
Definition parse_isoformat_time (b : string) (start n : Z)
    : option (list Z * option Z) :=
  let tzinfo_pos :=
    match Str.drop (Z.to_nat start) b with
    | EmptyString => start + 1
    | rest => start + tz_scan rest
    end in
  '(comps, text_left) ← parse_hh_mm_ss_ff b start tzinfo_pos;
  if tzinfo_pos =? n then
    if text_left : bool then None else Some (comps, None)
  else if byte_at b tzinfo_pos =? 90 then
    if byte_at b (tzinfo_pos + 1) =? 0 then Some (comps, Some 0) else None
  else
    let tzsign := if byte_at b tzinfo_pos =? 45 then -1 else 1 in
    '(tz, text_left) ← parse_hh_mm_ss_ff b (tzinfo_pos + 1) n;
    if text_left : bool then None
    else
      let tzoffset := tzsign * (nth 0 tz 0 * 3600 + nth 1 tz 0 * 60 + nth 2 tz 0) in
      if tzoffset =? 0 then Some (comps, Some 0)
      else Some (comps, Some (tzoffset * 1000000 + tzsign * nth 3 tz 0)).

(** The width in bytes of the character that starts with byte [c]. *)
Definition utf8_width (c : Z) : Z :=
  if Z.land c 128 =? 0 then 1
  else if Z.land c 240 =? 240 then 4
  else if Z.land c 240 =? 224 then 3
  else 2.

Definition check_fields (d : datetime) : bool :=
  (MINYEAR <=? year d) && (year d <=? MAXYEAR) &&
  (1 <=? month d) && (month d <=? 12) &&
  (1 <=? day d) && (day d <=? days_in_month (year d) (month d)) &&
  (0 <=? hour d) && (hour d <=? 23) &&
  (0 <=? minute d) && (minute d <=? 59) &&
  (0 <=? second d) && (second d <=? 59) &&
  (0 <=? microsecond d) && (microsecond d <=? 999999) &&
  match utcoffset d with
  | Some off => (-86400000000 <? off) && (off <? 86400000000)
  | None => true
  end.

Definition parse (s : string) : option datetime :=
  let b := utf8 s in
  let n := Z.of_nat (Str.len b) in
  if n <? 7 then None
  else
    sep ← find_isoformat_datetime_separator b n;
    '(y, m, d) ← parse_isoformat_date b sep;
    '(comps, tz) ←
      (if sep <? n then parse_isoformat_time b (sep + utf8_width (byte_at b sep)) n
       else Some ([0; 0; 0; 0], None));
    let dt := {| year := y; month := m; day := d;
                 hour := nth 0 comps 0; minute := nth 1 comps 0;
                 second := nth 2 comps 0; microsecond := nth 3 comps 0;
                 utcoffset := tz |} in
    if check_fields dt then Some dt else None.

(** [datetime.fromisoformat(s)]: every failure is a [ValueError]. *)
Definition fromisoformat (s : string) : result datetime :=
  match parse s with
  | Some dt => Ok dt
  | None => Raise ValueError
  end.

End Datetime.


(** * [scripts/download_GBIF.py] *)

Local Open Scope nat_scope.

(** A [for] loop that threads its variables [s] through the body. *)
Fixpoint for_each `{MBind M, MRet M} {A S : Type}
    (xs : list A) (s : S) (body : S → A → M S) : M S :=
  match xs with
  | [] => mret s
  | x :: xs' => s' ← body s x; for_each xs' s' body
  end.

(** [range(start, stop, step)] for a positive [step]. *)
Definition py_range (start stop step : nat) : list nat :=
  (λ k, start + k * step) <$> seq 0 ((stop - start + step - 1) / step).

(** [l[i:j]] *)
Definition slice {A} (l : list A) (i j : nat) : list A := take (j - i) (drop i l).

Definition is_None (v : pyval) : bool :=
  match v with
  | PyNone => true
  | _ => false
  end.

(** ** The field normalizer *)

(** [convert_func] is [None] or a callable; [float] and [int] are [Py.float]
    and [Py.int]. *)
Definition safe_convert (value : pyval)
    (convert_func : option (pyval → result pyval)) : result pyval :=
  blank ←
    (if Py.isna value then Ok true
     else if is_None value then Ok true
     else s ← Py.str value; Ok (Str.mem (Str.lower s) ["nan"; "none"; ""]));
  if blank : bool then Ok PyNone
  else
    try_except
      (match convert_func with
       | Some f => f value
       | None => Ok value
       end)
      ValueError_or_TypeError
      (Ok PyNone).

(** ** The date normalizer *)

Definition safe_convert_date (date_value : pyval) : result pyval :=
  blank ←
    (if Py.isna date_value then Ok true
     else if is_None date_value then Ok true
     else s ← Py.str date_value; Ok (Str.mem (Str.lower s) ["nan"; "none"; ""]));
  if blank : bool then Ok PyNone
  else
    date_str ← Py.str date_value;
    (* Handle date ranges - take the first date *)
    let date_str :=
      if Str.contains "/" date_str then Str.split_head "/" date_str else date_str in
    (* Handle time ranges - take just the date part if too long *)
    let date_str :=
      if Str.contains "T" date_str && (19 <? Str.len date_str)
      then Str.take 19 date_str else date_str in
    (* Try to validate the date format *)
    try_except
      (_ ← Datetime.fromisoformat (Str.replace "Z" "+00:00" date_str);
       Ok (PyStr date_str))
      ValueError_or_TypeError
      (Ok PyNone).

(** ** The record validation loop *)

(** A row of [df_clean]; [row.get(name)] is [None] for a missing column. *)
Definition row_get (row : gmap string pyval) (name : string) : pyval :=
  default PyNone (row !! name).

(** The dict built for one row. *)
Record clean_record : Type := {
  scientific_name : pyval;
  species : pyval;
  genus : pyval;
  family : pyval;
  order : pyval;
  decimal_latitude : pyval;
  decimal_longitude : pyval;
  year : pyval;
  month : pyval;
  day : pyval;
  event_date : pyval
}.

Definition build_record (row : gmap string pyval) : result clean_record :=
  scientific_name ← safe_convert (row_get row "scientificName") None;
  species ← safe_convert (row_get row "species") None;
  genus ← safe_convert (row_get row "genus") None;
  family ← safe_convert (row_get row "family") None;
  order ← safe_convert (row_get row "order") None;
  decimal_latitude ← safe_convert (row_get row "decimalLatitude") (Some Py.float);
  decimal_longitude ← safe_convert (row_get row "decimalLongitude") (Some Py.float);
  year ← safe_convert (row_get row "year") (Some Py.int);
  month ← safe_convert (row_get row "month") (Some Py.int);
  day ← safe_convert (row_get row "day") (Some Py.int);
  event_date ← safe_convert_date (row_get row "eventDate");
  Ok {| scientific_name := scientific_name; species := species; genus := genus;
        family := family; order := order;
        decimal_latitude := decimal_latitude; decimal_longitude := decimal_longitude;
        year := year; month := month; day := day; event_date := event_date |}.

(** [record['decimal_latitude'] is not None and
     record['decimal_longitude'] is not None] *)
Definition has_coordinates (record : clean_record) : bool :=
  negb (is_None (decimal_latitude record)) && negb (is_None (decimal_longitude record)).

(** One turn of the loop: [records] is the list built so far. *)
Definition validate_row (records : list clean_record) (row : gmap string pyval)
    : result (list clean_record) :=
  record ← build_record row;
  (* Only add records with valid coordinates *)
  if has_coordinates record then Ok (records ++ [record]) else Ok records.

Definition validate_rows (df_clean : list (gmap string pyval))
    : result (list clean_record) :=
  for_each df_clean [] validate_row.

(** ** The batch insert loop *)

Definition batch_size : nat := 100.

(** What the script writes to the console and to the log. *)
Inductive message : Type :=
  | Saving
  | Prepared (valid : nat)
  | InsertedBatch (batch_no total_inserted total : nat)
  | Saved (total_inserted : nat)
  | ErrorSaving (e : pyexn)
  | BackupNote.

(** What can be observed of a run, in order: the lines written and the
    insert requests issued. *)
Inductive event : Type :=
  | Print (m : message)
  | Log (m : message)
  | Insert (batch : list clean_record).

Section Loader.

(** The destination store, and what
    [supabase.table('gbif_fungal_observations').insert(batch).execute()]
    does to it: the store after the request and the exception raised, if
    any. *)
Context {store : Type}.
Variable insert_execute : list clean_record → store → store * option pyexn.

Record world : Type := { db : store; trace : list event }.

(** Statements: they change the world and complete or raise. *)
Record script (A : Type) : Type := Script { run : world → result A * world }.
Global Arguments Script {A} _.
Global Arguments run {A} _ _.

Global Instance script_ret : MRet script := λ A a, Script (λ w, (Ok a, w)).
Global Instance script_bind : MBind script := λ A B f m,
  Script (λ w,
    match run m w with
    | (Ok a, w') => run (f a) w'
    | (Raise e, w') => (Raise e, w')
    end).

Definition emit (ev : event) : script unit :=
  Script (λ w, (Ok tt, {| db := db w; trace := trace w ++ [ev] |})).

Definition lift {A} (r : result A) : script A := Script (λ w, (r, w)).

(** [try: body except Exception as e: handler e] *)
Definition try_script {A} (body : script A) (handler : pyexn → script A) : script A :=
  Script (λ w,
    match run body w with
    | (Ok a, w') => (Ok a, w')
    | (Raise e, w') => run (handler e) w'
    end).

Definition table_insert (batch : list clean_record) : script unit :=
  Script (λ w,
    let '(db', err) := insert_execute batch (db w) in
    (match err with
     | None => Ok tt
     | Some e => Raise e
     end,
     {| db := db'; trace := trace w ++ [Insert batch] |})).

(** Lines 134-137, the body of the loop: the value is [total_inserted]
    after the turn for [i]. *)
Definition insert_batch (records : list clean_record) (total_inserted i : nat)
    : script nat :=
  let batch := slice records i (i + batch_size) in
  _ ← table_insert batch;
  let total_inserted := total_inserted + length batch in
  _ ← emit (Print (InsertedBatch (i / batch_size + 1) total_inserted (length records)));
  mret total_inserted.

(** Lines 130-139: the value is the final [total_inserted]. *)
Definition insert_batches (records : list clean_record) : script nat :=
  total_inserted ←
    for_each (py_range 0 (length records) batch_size) 0 (insert_batch records);
  _ ← emit (Print (Saved total_inserted));
  mret total_inserted.

(** Lines 71-143: the [try] block and its handler. *)
Definition save_to_supabase (df_clean : list (gmap string pyval)) : script unit :=
  try_script
    (_ ← emit (Print Saving);
     records ← lift (validate_rows df_clean);
     _ ← emit (Print (Prepared (length records)));
     _ ← insert_batches records;
     mret tt)
    (λ e, _ ← emit (Log (ErrorSaving e)); emit (Log BackupNote)).

(** The insert requests of a run, in order. *)
Definition inserts_of (t : list event) : list (list clean_record) :=
  omap (λ ev, match ev with Insert batch => Some batch | _ => None end) t.

(** The lines printed in a run, in order. *)
Definition printed_of (t : list event) : list message :=
  omap (λ ev, match ev with Print m => Some m | _ => None end) t.

End Loader.

Global Arguments world : clear implicits.
Global Arguments script : clear implicits.


(** * [scripts/process_haedat.py] *)

(** The coordinate filter of [process_haedat_file], for one row. A column
    comparison is taken element by element: a missing value compares false
    (true for [!=]), a number compares by value, and ordering a str against a
    number raises [TypeError]. *)
Module Haedat.

Definition notna (v : pyval) : bool := negb (Py.isna v).

(** [v != s] for a str [s] *)
Definition ne_str (v : pyval) (s : string) : bool :=
  match v with
  | PyStr t => negb (String.eqb t s)
  | _ => true
  end.

(** [v >= bound] and [v <= bound] for an int [bound] *)
Definition ge_int (v : pyval) (bound : Z) : result bool :=
  match v with
  | PyNone => Ok false
  | PyFloat f => Ok (SFleb (Py.float_of_Z bound) f)
  | PyInt n => Ok (bound <=? n)%Z
  | PyStr _ => Raise TypeError
  end.

Definition le_int (v : pyval) (bound : Z) : result bool :=
  match v with
  | PyNone => Ok false
  | PyFloat f => Ok (SFleb f (Py.float_of_Z bound))
  | PyInt n => Ok (n <=? bound)%Z
  | PyStr _ => Raise TypeError
  end.

(** STRICT coordinate filtering - only keep rows with VALID lat/lng *)
Definition coord_mask (latitude longitude : pyval) : result bool :=
  (* Latitude must be valid number between -90 and 90 *)
  lat_ge ← ge_int latitude (-90);
  lat_le ← le_int latitude 90;
  (* Longitude must be valid number between -180 and 180 *)
  lon_ge ← ge_int longitude (-180);
  lon_le ← le_int longitude 180;
  Ok (notna latitude && ne_str latitude "" && ne_str latitude " " && lat_ge && lat_le &&
      notna longitude && ne_str longitude "" && ne_str longitude " " && lon_ge && lon_le).

End Haedat.


(** [t.startswith(s)] *)
Fixpoint starts_with (s t : string) : bool :=
  match s, t with
  | EmptyString, _ => true
  | String a s', String b t' => Ascii.eqb a b && starts_with s' t'
  | String _ _, EmptyString => false
  end.


(** * [scripts/download_copernicus.py] *)

(** The three steps of the script and [main]. What the script calls outside
    itself is a parameter: the download [copernicusmarine.subset], the
    programs run through [subprocess.run(..., check=True)], the opening of
    the SQL file for writing, and the environment as [dotenv.load_dotenv]
    leaves it. A path is the name of a file: [os.path.exists] is membership
    in the set of the names that exist. *)
Module Copernicus.

(** The exception classes the handlers of the script tell apart. *)
Inductive exn : Type :=
  | CalledProcessError
  | FileNotFoundError
  | OtherException.

Inductive outcome (A : Type) : Type :=
  | Done (a : A)
  | Raised (e : exn).
Global Arguments Done {A} _.
Global Arguments Raised {A} _.

(** The lines printed, one constructor for each [print] of the script. *)
Inductive line : Type :=
  | NcExists
  | Downloading
  | Downloaded
  | DownloadError (e : exn)
  | LoginHint
  | TifExists
  | SourceNotFound
  | Converted
  | ConvertError (e : exn)
  | GdalNotFound
  | TifNotFound
  | UrlNotSet
  | UrlNotSetHint
  | UrlNotSetExample
  | UrlInvalid
  | UrlInvalidHint
  | UrlInvalidWhere
  | SqlGenerated
  | Loaded
  | LoadError (e : exn)
  | LoadErrorHint
  | PostgresNotFound
  | Banner
  | Rule
  | LoginVerified.

(** What can be observed of a run, in order. *)
Inductive event : Type :=
  | Print (l : line)
  | LoadDotenv
  | Subset (output_filename : string)
  | Open (path : string)
  | Run (argv : list string).

Record world : Type := { files : gset string; trace : list event }.

Record cmd (A : Type) : Type := Cmd { exec : world → outcome A * world }.
Global Arguments Cmd {A} _.
Global Arguments exec {A} _ _.

Global Instance cmd_ret : MRet cmd := λ A a, Cmd (λ w, (Done a, w)).
Global Instance cmd_bind : MBind cmd := λ A B f m,
  Cmd (λ w,
    match exec m w with
    | (Done a, w') => exec (f a) w'
    | (Raised e, w') => (Raised e, w')
    end).

Definition emit (ev : event) : cmd unit :=
  Cmd (λ w, (Done tt, {| files := files w; trace := trace w ++ [ev] |})).

Definition print (l : line) : cmd unit := emit (Print l).

(** [os.path.exists(path)] *)
Definition exists_ (path : string) : cmd bool :=
  Cmd (λ w, (Done (bool_decide (path ∈ files w)), w)).

(** [try: body except ...: handler e]; a handler that does not take [e]
    raises it again. *)
Definition try_ {A} (body : cmd A) (handler : exn → cmd A) : cmd A :=
  Cmd (λ w,
    match exec body w with
    | (Done a, w') => (Done a, w')
    | (Raised e, w') => exec (handler e) w'
    end).

Definition raise {A} (e : exn) : cmd A := Cmd (λ w, (Raised e, w)).

(** A call outside the script: the event, then what the call does to the
    files and the exception it raises, if any. *)
Definition call (ev : event) (effect : gset string → gset string * option exn)
    : cmd unit :=
  Cmd (λ w,
    let '(files', err) := effect (files w) in
    (match err with
     | None => Done tt
     | Some e => Raised e
     end,
     {| files := files'; trace := trace w ++ [ev] |})).

Section Script.

Variable copernicusmarine_subset : string → gset string → gset string * option exn.
Variable subprocess_run : list string → gset string → gset string * option exn.
Variable open_w : string → gset string → gset string * option exn.
Variable environ_get : string → option string.

(** The double quote character. *)
Definition quote : string := String (Ascii.ascii_of_nat 34) EmptyString.

Definition gdal_translate (nc_file tif_file : string) : list string :=
  ["gdal_translate"; "-of"; "GTiff"; "-a_srs"; "EPSG:4326";
   "NETCDF:" +:+ quote +:+ nc_file +:+ quote +:+ ":thetao"; tif_file].

Definition raster2pgsql (tif_file : string) : list string :=
  ["raster2pgsql"; "-s"; "4326"; "-I"; "-C"; "-M"; tif_file; "public.sst_data"].

Definition psql (db_url : string) : list string :=
  ["psql"; db_url; "-f"; "sst_data.sql"].

Definition download_sst_data : cmd unit :=
  (* Check if NetCDF file already exists *)
  let nc_file := "data/sst_last_month.nc" in
  found ← exists_ nc_file;
  if found : bool then print NcExists
  else
    _ ← print Downloading;
    try_
      (_ ← call (Subset nc_file) (copernicusmarine_subset nc_file);
       print Downloaded)
      (λ e, _ ← print (DownloadError e); print LoginHint).

Definition convert_to_geotiff : cmd unit :=
  (* Check if GeoTIFF file already exists *)
  let tif_file := "data/sst_monthly.tif" in
  found ← exists_ tif_file;
  if found : bool then print TifExists
  else
    (* Check if source NetCDF file exists *)
    let nc_file := "sst_last_month.nc" in
    found ← exists_ nc_file;
    if negb found then print SourceNotFound
    else
      try_
        (_ ← call (Run (gdal_translate nc_file tif_file))
               (subprocess_run (gdal_translate nc_file tif_file));
         print Converted)
        (λ e,
           match e with
           | CalledProcessError => print (ConvertError e)
           | FileNotFoundError => print GdalNotFound
           | OtherException => raise e
           end).

Definition load_to_supabase : cmd unit :=
  (* Check if GeoTIFF file exists *)
  let tif_file := "data/sst_monthly.tif" in
  found ← exists_ tif_file;
  if negb found then print TifNotFound
  else
    (* Check if SUPABASE_DB_URL is set *)
    match environ_get "SUPABASE_DB_URL" with
    | None | Some EmptyString =>
        _ ← print UrlNotSet; _ ← print UrlNotSetHint; print UrlNotSetExample
    | Some db_url =>
        (* Validate the connection string format *)
        if negb (starts_with "postgresql://" db_url) then
          _ ← print UrlInvalid; _ ← print UrlInvalidHint; print UrlInvalidWhere
        else
          try_
            ((* Generate SQL file *)
             _ ← call (Open "sst_data.sql") (open_w "sst_data.sql");
             _ ← call (Run (raster2pgsql tif_file)) (subprocess_run (raster2pgsql tif_file));
             _ ← print SqlGenerated;
             (* Load into database *)
             _ ← call (Run (psql db_url)) (subprocess_run (psql db_url));
             print Loaded)
            (λ e,
               match e with
               | CalledProcessError => _ ← print (LoadError e); print LoadErrorHint
               | FileNotFoundError => print PostgresNotFound
               | OtherException => raise e
               end)
    end.

Definition main : cmd unit :=
  _ ← print Banner;
  _ ← print Rule;
  _ ← emit LoadDotenv;
  _ ← print LoginVerified;
  (* Download the data (only if needed) *)
  _ ← download_sst_data;
  (* Convert to GeoTIFF (only if needed) *)
  _ ← convert_to_geotiff;
  (* Load to Supabase (only if needed) *)
  load_to_supabase.

End Script.

(** The programs run, in order. *)
Definition runs_of (t : list event) : list (list string) :=
  omap (λ ev, match ev with Run argv => Some argv | _ => None end) t.

(** A download that succeeds and writes the file it is asked for. *)
Definition writes_output (output_filename : string) (fs : gset string)
    : gset string * option exn :=
  ({[ output_filename ]} ∪ fs, None).

(** Programs and files that are never touched. *)
Definition no_effect {A} (_ : A) (fs : gset string) : gset string * option exn :=
  (fs, None).

End Copernicus.


(** * Auxiliary definitions for the statements *)

Definition is_Raise {A} (r : result A) : bool :=
  match r with
  | Raise _ => true
  | Ok _ => false
  end.

(** Every way of writing a lower-case word in mixed case. *)
Fixpoint case_variants (s : string) : list string :=
  match s with
  | EmptyString => [EmptyString]
  | String c s' =>
      v ← case_variants s';
      [String c v; String (Str.chr (Str.code c - 32)) v]
  end.

(** The strings [s] with [s.lower() in ['nan', 'none', '']]. *)
Definition blank_strings : list string :=
  case_variants "nan" ++ case_variants "none" ++ [""].

Definition is_az (c : ascii) : bool := (97 <=? Str.code c)%Z && (Str.code c <=? 122)%Z.

(** The steps of [safe_convert_date] on the text of its argument: the part
    before a range delimiter, the truncation of a long timestamp, and the
    validation. *)
Definition date_head (s : string) : string :=
  if Str.contains "/" s then Str.split_head "/" s else s.

Definition date_cut (s : string) : string :=
  if Str.contains "T" s && (19 <? Str.len s) then Str.take 19 s else s.

Definition date_check (s : string) : result pyval :=
  try_except
    (_ ← Datetime.fromisoformat (Str.replace "Z" "+00:00" s);
     Ok (PyStr s))
    ValueError_or_TypeError
    (Ok PyNone).

(** The two rows of the examples: latitude "abc" with longitude "10.0", and
    latitude 999.0 with longitude 10.0. *)
Definition row_abc : gmap string pyval :=
  {[ "decimalLatitude" := PyStr "abc"; "decimalLongitude" := PyStr "10.0" ]}.

Definition row_999 : gmap string pyval :=
  {[ "decimalLatitude" := PyFloat (Py.float_of_Z 999);
     "decimalLongitude" := PyFloat (Py.float_of_Z 10) ]}.

(** Rows that make the loop raise: valid coordinates with a year that is the
    float infinity, latitude 999.0 with such a year, and a latitude that is an
    int too large for a float. [row_text] is a row of text cells. *)
Definition row_inf_year : gmap string pyval :=
  {[ "decimalLatitude" := PyStr "45.0"; "decimalLongitude" := PyStr "10.0";
     "year" := PyFloat (S754_infinity false) ]}.

Definition row_999_inf_year : gmap string pyval :=
  {[ "decimalLatitude" := PyFloat (Py.float_of_Z 999);
     "decimalLongitude" := PyFloat (Py.float_of_Z 10);
     "year" := PyFloat (S754_infinity false) ]}.

Definition row_big_latitude : gmap string pyval :=
  {[ "decimalLatitude" := PyInt (10 ^ 400)%Z; "decimalLongitude" := PyStr "10.0" ]}.

Definition row_text : gmap string pyval :=
  {[ "decimalLatitude" := PyStr "45.5"; "decimalLongitude" := PyStr "-10";
     "species" := PyStr "Amanita muscaria"; "year" := PyStr "2024" ]}.

(** A record that holds nothing but the two coordinates. *)
Definition coordinates_only (latitude longitude : pyval) : clean_record :=
  {| scientific_name := PyNone; species := PyNone; genus := PyNone;
     family := PyNone; order := PyNone;
     decimal_latitude := latitude; decimal_longitude := longitude;
     year := PyNone; month := PyNone; day := PyNone; event_date := PyNone |}.

(** The raw value normalizes to a non-null float. *)
Definition normalizes_to_float (v : pyval) : Prop :=
  ∃ f, safe_convert v (Some Py.float) = Ok (PyFloat f).

(** A store that counts the insert requests it receives and fails the
    second one. *)
Definition fails_second (batch : list clean_record) (requests : nat)
    : nat * option pyexn :=
  (S requests, if Nat.eqb requests 1 then Some (StoreError "insert failed") else None).

(** The world before a run: an empty store, nothing observed yet. *)
Definition fresh : world nat := {| db := 0; trace := [] |}.

(** 250 valid records. *)
Definition records_250 : list clean_record :=
  replicate 250 (coordinates_only (PyFloat (Py.float_of_Z 45)) (PyFloat (Py.float_of_Z 10))).


(** * Further definitions for the statements *)

(** The conversions the script passes to [safe_convert]: none, [float] and
    [int]. *)
Inductive conversion : Type :=
  | AsIs
  | ToFloat
  | ToInt.

Definition convert_func_of (c : conversion) : option (pyval → result pyval) :=
  match c with
  | AsIs => None
  | ToFloat => Some Py.float
  | ToInt => Some Py.int
  end.

(** The first character is a digit or one of '-', '.', 'e', 'i'. *)
Definition good_head (s : string) : bool :=
  match s with
  | String c _ =>
      Str.is_digit c || Ascii.eqb c "-" || Ascii.eqb c "." || Ascii.eqb c "e" || Ascii.eqb c "i"
  | EmptyString => false
  end.

(** The batches the loop of lines 133-137 plans for [records]. *)
Definition batches (records : list clean_record) : list (list clean_record) :=
  (λ i, slice records i (i + batch_size)) <$> py_range 0 (length records) batch_size.

(** The cell makes [safe_convert], under the conversion [c], raise. *)
Definition poisons (c : conversion) (v : pyval) : Prop :=
  (∃ n : Z, v = PyInt n ∧ Py.int_max_str_digits < Str.len (Str.decimal (Z.abs n))) ∨
  (∃ (n : Z) (s : bool), v = PyInt n ∧ c = ToFloat ∧ Py.float_of_Z n = S754_infinity s) ∨
  (∃ s : bool, v = PyFloat (S754_infinity s) ∧ c = ToInt).

(** The cell makes [safe_convert_date] raise. *)
Definition poisons_date (v : pyval) : Prop :=
  ∃ n : Z, v = PyInt n ∧ Py.int_max_str_digits < Str.len (Str.decimal (Z.abs n)).

(** A cell that holds text or nothing. *)
Definition is_text (v : pyval) : bool :=
  match v with
  | PyNone | PyStr _ => true
  | PyFloat _ | PyInt _ => false
  end.

(** The two coordinates of a record are floats. *)
Definition float_coordinates (record : clean_record) : Prop :=
  ∃ x y : spec_float,
    decimal_latitude record = PyFloat x ∧ decimal_longitude record = PyFloat y.

(** Every cell of the row holds text or nothing. *)
Definition text_row (row : gmap string pyval) : Prop :=
  map_Forall (λ _ v, is_text v = true) row.

(** A row whose latitude is the text "-nan". *)
Definition row_nan : gmap string pyval :=
  {[ "decimalLatitude" := PyStr "-nan"; "decimalLongitude" := PyStr "10.0" ]}.

(** What a run observes for the batch at position [j] of the plan when its
    insert succeeds: the request, then the progress line. *)
Definition batch_events (records : list clean_record) (j : nat)
    (batch : list clean_record) : list event :=
  [Insert batch;
   Print (InsertedBatch (j + 1) (min ((j + 1) * batch_size) (length records))
            (length records))].

(** A store that counts the insert requests it receives and accepts them
    all. *)
Definition accepts_all (batch : list clean_record) (requests : nat)
    : nat * option pyexn :=
  (S requests, None).

(** Both coordinates of the row are floats other than NaN: what
    [dropna(subset=['decimalLatitude', 'decimalLongitude'])] leaves of two
    numeric columns. *)
Definition float_row (row : gmap string pyval) : Prop :=
  ∃ x y : spec_float,
    row_get row "decimalLatitude" = PyFloat x ∧ x ≠ S754_nan ∧
    row_get row "decimalLongitude" = PyFloat y ∧ y ≠ S754_nan.

(** The coordinates of the record are the cells of the row. *)
Definition same_coordinates (row : gmap string pyval) (record : clean_record) : Prop :=
  decimal_latitude record = row_get row "decimalLatitude" ∧
  decimal_longitude record = row_get row "decimalLongitude".


(** * Properties *)

(** ** Strings *)

Lemma contains_split_head (c : ascii) (s : string) :
  Str.contains c (Str.split_head c s) = false.
Proof.
  induction s as [|d s IH]; simpl; [reflexivity|].
  destruct (Ascii.eqb d c) eqn:E; simpl; [reflexivity|].
  rewrite E. exact IH.
Qed.

Lemma contains_take (c : ascii) (n : nat) (s : string) :
  Str.contains c s = false → Str.contains c (Str.take n s) = false.
Proof.
  revert s. induction n as [|n IH]; intros [|d s]; simpl; try reflexivity.
  destruct (Ascii.eqb d c); [discriminate|]. apply IH.
Qed.

Lemma len_take (n : nat) (s : string) : Str.len (Str.take n s) ≤ n.
Proof.
  revert s. induction n as [|n IH]; intros [|d s]; simpl; try lia.
  specialize (IH s). lia.
Qed.

Lemma mem_elem_of (s : string) (l : list string) : Str.mem s l = true ↔ s ∈ l.
Proof.
  unfold Str.mem. rewrite existsb_exists. split.
  - intros (t & Hin & Heq). apply String.eqb_eq in Heq as ->.
    by apply list_elem_of_In.
  - intros Hin. exists s. split; [by apply list_elem_of_In|apply String.eqb_refl].
Qed.

Lemma forallb_elem_of (p : string → bool) (l : list string) (s : string) :
  forallb p l = true → s ∈ l → p s = true.
Proof.
  rewrite forallb_forall. intros Hall Hin. apply Hall. by apply list_elem_of_In.
Qed.

(** ** The blank markers *)

Lemma lower_char_inv (c : ascii) :
  is_az (Str.lower_char c) = true →
  c = Str.lower_char c ∨ c = Str.chr (Str.code (Str.lower_char c) - 32).
Proof.
  destruct c as [[] [] [] [] [] [] [] []]; vm_compute; intros H;
    first [discriminate H | by left | by right].
Qed.

Lemma lower_inv (s t : string) :
  Str.lower s = t → Str.all is_az t = true → s ∈ case_variants t.
Proof.
  revert t. induction s as [|c s IH]; intros [|d t]; simpl; try discriminate.
  - intros _ _. apply list_elem_of_singleton. reflexivity.
  - intros [= Hc Hs] [Hd Ht]%andb_true_iff. subst d.
    apply list_elem_of_bind. exists s. split; [|by apply IH].
    rewrite !elem_of_cons.
    destruct (lower_char_inv c Hd) as [Hc|Hc]; [left|right; left]; by f_equal.
Qed.

Lemma blank_enumerated (s : string) :
  Str.mem (Str.lower s) ["nan"; "none"; ""] = true → s ∈ blank_strings.
Proof.
  rewrite mem_elem_of, !elem_of_cons, elem_of_nil.
  unfold blank_strings. rewrite !elem_of_app.
  intros [H|[H|[H|[]]]].
  - left. by apply lower_inv.
  - right; left. by apply lower_inv.
  - right; right. destruct s; [|discriminate]. by apply list_elem_of_singleton.
Qed.

(** Unfolds the binds of the [result] monad and nothing else. *)
Ltac result_simpl :=
  cbv beta iota delta [mbind result_bind mret result_ret fmap result_fmap].

Lemma blank_no_slash (s : string) : s ∈ blank_strings → Str.contains "/" s = false.
Proof.
  intros Hin.
  apply (forallb_elem_of (λ s, negb (Str.contains "/" s)) blank_strings s) in Hin;
    [|by vm_compute].
  by apply negb_true_iff in Hin.
Qed.

Lemma blank_date_cut (s : string) : s ∈ blank_strings → date_cut s = s.
Proof.
  intros Hin.
  apply (forallb_elem_of (λ s, String.eqb (date_cut s) s) blank_strings s) in Hin;
    [|by vm_compute].
  by apply String.eqb_eq in Hin.
Qed.

(** No blank marker is an ISO date: validating one gives [None]. *)
Lemma blank_date_check (s : string) : s ∈ blank_strings → date_check s = Ok PyNone.
Proof.
  intros Hin.
  apply (forallb_elem_of
           (λ s, match date_check s with Ok PyNone => true | _ => false end)
           blank_strings s) in Hin; [|by vm_compute].
  destruct (date_check s) as [[]|]; by try discriminate.
Qed.

(** ** The date normalizer *)

Lemma date_check_eq (s : string) :
  date_check s =
  match Datetime.parse (Str.replace "Z" "+00:00" s) with
  | Some _ => Ok (PyStr s)
  | None => Ok PyNone
  end.
Proof.
  unfold date_check, Datetime.fromisoformat.
  by destruct (Datetime.parse _).
Qed.

(** [safe_convert_date] by cases on its argument. *)
Lemma safe_convert_date_eq (v : pyval) :
  safe_convert_date v =
  if Py.isna v || is_None v then Ok PyNone
  else match Py.str v with
       | Raise e => Raise e
       | Ok s =>
           if Str.mem (Str.lower s) ["nan"; "none"; ""] then Ok PyNone
           else date_check (date_cut (date_head s))
       end.
Proof.
  unfold safe_convert_date, date_check, date_cut, date_head.
  destruct (Py.isna v); [reflexivity|].
  destruct (is_None v); [reflexivity|].
  destruct (Py.str v) as [s|e]; [|reflexivity]. result_simpl.
  by destruct (Str.mem _ _).
Qed.

Lemma safe_convert_date_str (s : string) :
  safe_convert_date (PyStr s) =
  if Str.mem (Str.lower s) ["nan"; "none"; ""] then Ok PyNone
  else date_check (date_cut (date_head s)).
Proof. by rewrite safe_convert_date_eq. Qed.

Lemma date_head_no_slash (s : string) : Str.contains "/" (date_head s) = false.
Proof.
  unfold date_head. destruct (Str.contains "/" s) eqn:E; [|exact E].
  apply contains_split_head.
Qed.

Lemma date_cut_no_slash (s : string) :
  Str.contains "/" s = false → Str.contains "/" (date_cut s) = false.
Proof.
  intros H. unfold date_cut.
  destruct (_ && _); [by apply contains_take|exact H].
Qed.

Lemma date_head_id (s : string) : Str.contains "/" s = false → date_head s = s.
Proof. unfold date_head. by intros ->. Qed.

Lemma date_cut_idem (s : string) : date_cut (date_cut s) = date_cut s.
Proof.
  unfold date_cut at 2.
  destruct (Str.contains "T" s && (19 <? Str.len s)) eqn:E; unfold date_cut.
  - assert ((19 <? Str.len (Str.take 19 s)) = false) as ->
      by (apply Nat.ltb_ge, len_take).
    by rewrite andb_false_r, E.
  - by rewrite !E.
Qed.

(** The text a non-null result was validated from is a fixed point of the
    first two steps. *)
Lemma date_steps_idem (s : string) :
  date_cut (date_head (date_cut (date_head s))) = date_cut (date_head s).
Proof.
  rewrite (date_head_id (date_cut (date_head s))).
  - apply date_cut_idem.
  - apply date_cut_no_slash, date_head_no_slash.
Qed.

(** A non-null result is the validated text itself. *)
Lemma date_check_Ok (s : string) (r : pyval) :
  date_check s = Ok r → r ≠ PyNone →
  r = PyStr s ∧ ∃ dt, Datetime.fromisoformat (Str.replace "Z" "+00:00" s) = Ok dt.
Proof.
  rewrite date_check_eq. unfold Datetime.fromisoformat.
  destruct (Datetime.parse _) as [dt|]; intros [= <-] Hr; [|done].
  split; [reflexivity|by exists dt].
Qed.

Lemma safe_convert_date_Ok (v r : pyval) :
  safe_convert_date v = Ok r → r ≠ PyNone →
  ∃ s, Py.str v = Ok s ∧ Str.mem (Str.lower s) ["nan"; "none"; ""] = false ∧
       date_check (date_cut (date_head s)) = Ok r.
Proof.
  rewrite safe_convert_date_eq.
  destruct (Py.isna v || is_None v); [by intros [= <-]|].
  destruct (Py.str v) as [s|e]; [|discriminate].
  destruct (Str.mem _ _) eqn:E; [by intros [= <-]|].
  intros H _. by exists s.
Qed.

(** C4, as the specification states it, does not hold: the first 19
    characters of the over-long timestamp are not an invalid text, and the
    normalizer does not resolve to null. *)
Lemma long_timestamp_not_null :
  ¬ (is_Raise (Datetime.fromisoformat
                 (Str.replace "Z" "+00:00" (Str.take 19 "2024-06-01T12:00:00.123456Z"))) = true
     ∧ safe_convert_date (PyStr "2024-06-01T12:00:00.123456Z") = Ok PyNone).
Proof. intros [H _]. vm_compute in H. discriminate H. Qed.

(** C4, amended: the over-long timestamp "2024-06-01T12:00:00.123456Z" is cut
    to its first 19 characters, "2024-06-01T12:00:00", before validation;
    that text is a valid ISO-8601 date-time (1 June 2024, 12:00:00, no
    offset), and it is what the normalizer returns. *)
Theorem long_timestamp_truncated :
  date_cut (date_head "2024-06-01T12:00:00.123456Z") =
    Str.take 19 "2024-06-01T12:00:00.123456Z" ∧
  Str.take 19 "2024-06-01T12:00:00.123456Z" = "2024-06-01T12:00:00" ∧
  Datetime.fromisoformat (Str.replace "Z" "+00:00" "2024-06-01T12:00:00") =
    Ok {| Datetime.year := 2024; Datetime.month := 6; Datetime.day := 1;
          Datetime.hour := 12; Datetime.minute := 0; Datetime.second := 0;
          Datetime.microsecond := 0; Datetime.utcoffset := None |} ∧
  safe_convert_date (PyStr "2024-06-01T12:00:00.123456Z") =
    date_check (Str.take 19 "2024-06-01T12:00:00.123456Z") ∧
  safe_convert_date (PyStr "2024-06-01T12:00:00.123456Z") =
    Ok (PyStr "2024-06-01T12:00:00").
Proof. repeat apply conj; by vm_compute. Qed.

(** C6: on a date string that contains '/', the date normalizer gives what it
    gives on the text before the first '/'; in particular the range
    "2024-06-01/2024-06-30" normalizes to "2024-06-01". *)
Theorem date_range_first_part :
  (∀ s : string,
     Str.contains "/" s = true →
     safe_convert_date (PyStr s) = safe_convert_date (PyStr (Str.split_head "/" s))) ∧
  Str.split_head "/" "2024-06-01/2024-06-30" = "2024-06-01" ∧
  safe_convert_date (PyStr "2024-06-01/2024-06-30") = Ok (PyStr "2024-06-01").
Proof.
  split; [|by vm_compute].
  intros s Hs. rewrite !safe_convert_date_str.
  destruct (Str.mem (Str.lower s) _) eqn:Es.
  { apply blank_enumerated, blank_no_slash in Es. congruence. }
  assert (Hhead : date_head s = Str.split_head "/" s)
    by (unfold date_head; by rewrite Hs).
  rewrite Hhead.
  destruct (Str.mem (Str.lower (Str.split_head "/" s)) _) eqn:Eh.
  - apply blank_enumerated in Eh.
    rewrite (blank_date_cut _ Eh). by apply blank_date_check.
  - by rewrite (date_head_id _ (contains_split_head "/" s)).
Qed.

Lemma date_range_first_part_witness :
  Str.contains "/" "2024-06-01/2024-06-30" = true ∧
  safe_convert_date (PyStr "2024-06-01/2024-06-30") =
    safe_convert_date (PyStr (Str.split_head "/" "2024-06-01/2024-06-30")).
Proof.
  split; [reflexivity|].
  apply (proj1 date_range_first_part "2024-06-01/2024-06-30"). reflexivity.
Defined.

(** C7: the date normalizer is idempotent on what it returns: when it returns
    a non-null result [r], it returns [r] on [r]; in particular
    "2024-06-01T12:00:00" maps to itself. *)
Theorem safe_convert_date_idempotent :
  (∀ v r : pyval,
     safe_convert_date v = Ok r → r ≠ PyNone → safe_convert_date r = Ok r) ∧
  safe_convert_date (PyStr "2024-06-01T12:00:00") = Ok (PyStr "2024-06-01T12:00:00").
Proof.
  split; [|by vm_compute].
  intros v r Hv Hr.
  destruct (safe_convert_date_Ok v r Hv Hr) as (s & _ & _ & Hcheck).
  destruct (date_check_Ok _ _ Hcheck Hr) as [-> _].
  rewrite safe_convert_date_str.
  destruct (Str.mem (Str.lower (date_cut (date_head s))) _) eqn:E.
  - apply blank_enumerated, blank_date_check in E. congruence.
  - by rewrite date_steps_idem.
Qed.

Lemma safe_convert_date_idempotent_witness :
  safe_convert_date (PyStr "2024-06-01T12:00:00.123456Z") = Ok (PyStr "2024-06-01T12:00:00") ∧
  PyStr "2024-06-01T12:00:00" ≠ PyNone ∧
  safe_convert_date (PyStr "2024-06-01T12:00:00") = Ok (PyStr "2024-06-01T12:00:00").
Proof.
  split; [by vm_compute|]. split; [discriminate|].
  apply (proj1 safe_convert_date_idempotent (PyStr "2024-06-01T12:00:00.123456Z"));
    [by vm_compute|discriminate].
Defined.

(** C10: a non-null result of the date normalizer is a string that
    [datetime.fromisoformat] accepts once 'Z' is replaced by '+00:00'. *)
Theorem safe_convert_date_result_parses (v r : pyval) :
  safe_convert_date v = Ok r → r ≠ PyNone →
  ∃ (s : string) (dt : Datetime.datetime),
    r = PyStr s ∧ Datetime.fromisoformat (Str.replace "Z" "+00:00" s) = Ok dt.
Proof.
  intros Hv Hr.
  destruct (safe_convert_date_Ok v r Hv Hr) as (s & _ & _ & Hcheck).
  destruct (date_check_Ok _ _ Hcheck Hr) as [-> [dt Hdt]].
  by exists (date_cut (date_head s)), dt.
Qed.

Lemma safe_convert_date_result_parses_witness :
  safe_convert_date (PyStr "2024-06-01T12:00Z") = Ok (PyStr "2024-06-01T12:00Z") ∧
  ∃ (s : string) (dt : Datetime.datetime),
    PyStr "2024-06-01T12:00Z" = PyStr s ∧
    Datetime.fromisoformat (Str.replace "Z" "+00:00" s) = Ok dt.
Proof.
  split; [by vm_compute|].
  apply (safe_convert_date_result_parses (PyStr "2024-06-01T12:00Z"));
    [by vm_compute|discriminate].
Defined.

(** ** The field normalizer *)

(** C3: a raw value that is missing ([None] or NaN), or whose string form is
    '', 'nan' or 'none' in any case, normalizes to null under every
    conversion. *)
Theorem safe_convert_blank (value : pyval)
    (convert_func : option (pyval → result pyval)) :
  Py.isna value = true ∨ value = PyNone ∨
  (∃ s, Py.str value = Ok s ∧ Str.mem (Str.lower s) ["nan"; "none"; ""] = true) →
  safe_convert value convert_func = Ok PyNone.
Proof.
  unfold safe_convert. intros [Hna|[->|(s & Hs & Hblank)]].
  - by rewrite Hna.
  - reflexivity.
  - destruct (Py.isna value); [reflexivity|].
    destruct (is_None value); [reflexivity|].
    rewrite Hs. result_simpl. by rewrite Hblank.
Qed.

Lemma safe_convert_blank_witness :
  safe_convert (PyFloat S754_nan) (Some Py.int) = Ok PyNone ∧
  safe_convert PyNone None = Ok PyNone ∧
  safe_convert (PyStr "NaN") (Some Py.float) = Ok PyNone ∧
  safe_convert (PyStr "None") (Some Py.int) = Ok PyNone ∧
  safe_convert (PyStr "") None = Ok PyNone.
Proof.
  repeat apply conj; apply safe_convert_blank.
  - left. reflexivity.
  - right; left. reflexivity.
  - right; right. exists "NaN". split; reflexivity.
  - right; right. exists "None". split; reflexivity.
  - right; right. exists "". split; reflexivity.
Defined.

(** What the field normalizer does raise: an error of [str(value)], or an
    error of the conversion that is neither a [ValueError] nor a
    [TypeError]. *)
Lemma safe_convert_Raise (value : pyval)
    (convert_func : option (pyval → result pyval)) (e : pyexn) :
  safe_convert value convert_func = Raise e →
  Py.str value = Raise e ∨
  ValueError_or_TypeError e = false ∧ ∃ f, convert_func = Some f ∧ f value = Raise e.
Proof.
  unfold safe_convert.
  destruct (Py.isna value); [discriminate|].
  destruct (is_None value); [discriminate|].
  destruct (Py.str value) as [s|e']; result_simpl; [|intros [= ->]; by left].
  destruct (Str.mem _ _); [discriminate|].
  destruct convert_func as [f|]; [|discriminate].
  unfold try_except. destruct (f value) as [r|e'] eqn:Ef; [discriminate|].
  destruct (ValueError_or_TypeError e') eqn:Ee; [discriminate|].
  intros [= ->]. right. split; [exact Ee|by exists f].
Qed.

(** On a str the field normalizer never raises. *)
Lemma safe_convert_str_total (s : string)
    (convert_func : option (pyval → result pyval)) :
  convert_func = None ∨ convert_func = Some Py.float ∨ convert_func = Some Py.int →
  ∃ r, safe_convert (PyStr s) convert_func = Ok r.
Proof.
  intros Hcf. destruct (safe_convert (PyStr s) convert_func) as [r|e] eqn:E; [by exists r|].
  apply safe_convert_Raise in E as [E|(He & f & -> & Hf)]; [discriminate|].
  exfalso. destruct Hcf as [?|[[= ->]|[= ->]]]; [discriminate| |].
  - simpl in Hf. unfold Py.float_of_str in Hf.
    destruct (_ ≫= _); simplify_eq/=.
  - simpl in Hf. unfold Py.int_of_str in Hf.
    repeat case_match; simplify_eq/=.
Qed.

(** C5 fails on the code: [int] of an infinite float and [float] of an int
    beyond the range of binary64 raise [OverflowError], which the handler of
    the field normalizer does not catch; and [str] of an int of more than
    4300 digits raises [ValueError] in the guard, outside the [try]. *)
Theorem safe_convert_raises :
  safe_convert (PyFloat (S754_infinity false)) (Some Py.int) = Raise OverflowError ∧
  safe_convert (PyInt (10 ^ 400)) (Some Py.float) = Raise OverflowError ∧
  safe_convert (PyInt (10 ^ 4300)) None = Raise ValueError.
Proof. repeat apply conj; by vm_compute. Qed.

(** ** The record validation loop *)

Lemma safe_convert_float_cases (v r : pyval) :
  safe_convert v (Some Py.float) = Ok r → r = PyNone ∨ ∃ f, r = PyFloat f.
Proof.
  unfold safe_convert.
  destruct (Py.isna v); [intros [= <-]; by left|].
  destruct (is_None v); [intros [= <-]; by left|].
  destruct (Py.str v) as [s|e]; result_simpl; [|discriminate].
  destruct (Str.mem _ _); [intros [= <-]; by left|].
  unfold try_except.
  destruct (Py.float v) as [r'|e] eqn:Ef.
  - intros [= <-]. right.
    destruct v as [|f|n|t]; simpl in Ef; [discriminate|by simplify_eq; eauto| |].
    + destruct (Py.float_of_int n); simplify_eq/=; eauto.
    + destruct (Py.float_of_str t); simplify_eq/=; eauto.
  - destruct (ValueError_or_TypeError e); [intros [= <-]; by left|discriminate].
Qed.

(** The coordinates of a built record are the normalized raw coordinates. *)
Lemma build_record_coordinates (row : gmap string pyval) (record : clean_record) :
  build_record row = Ok record →
  safe_convert (row_get row "decimalLatitude") (Some Py.float) = Ok (decimal_latitude record) ∧
  safe_convert (row_get row "decimalLongitude") (Some Py.float) = Ok (decimal_longitude record).
Proof.
  unfold build_record. result_simpl.
  repeat (match goal with
          | |- context [match ?c with Ok _ => _ | Raise _ => _ end] =>
              destruct c; [|discriminate]
          end).
  by intros [= <-].
Qed.

Lemma has_coordinates_iff (row : gmap string pyval) (record : clean_record) :
  build_record row = Ok record →
  has_coordinates record = true ↔
  normalizes_to_float (row_get row "decimalLatitude") ∧
  normalizes_to_float (row_get row "decimalLongitude").
Proof.
  intros [Hlat Hlon]%build_record_coordinates.
  unfold has_coordinates, normalizes_to_float. rewrite Hlat, Hlon.
  destruct (safe_convert_float_cases _ _ Hlat) as [->|[x ->]];
    destruct (safe_convert_float_cases _ _ Hlon) as [->|[y ->]]; simpl;
    split; try discriminate; try (intros [[? [=]] [? [=]]]; fail); eauto.
Qed.

Lemma validate_row_eq (records : list clean_record) (row : gmap string pyval)
    (record : clean_record) :
  build_record row = Ok record →
  validate_row records row =
  Ok (if has_coordinates record then records ++ [record] else records).
Proof.
  intros H. unfold validate_row. rewrite H. result_simpl.
  by destruct (has_coordinates record).
Qed.

(** The loop as a whole: the records built from the rows, filtered by the
    coordinate test, in the order of the rows. *)
Lemma for_each_validate_row (rows : list (gmap string pyval)) (acc : list clean_record) :
  for_each rows acc validate_row =
  recs ← mapM build_record rows; Ok (acc ++ filter (λ r, has_coordinates r = true) recs).
Proof.
  revert acc. induction rows as [|row rows IH]; intros acc.
  - cbn. by rewrite app_nil_r.
  - cbn [for_each mapM]. destruct (build_record row) as [record|e] eqn:Hb.
    + rewrite (validate_row_eq acc row record Hb). result_simpl. rewrite IH.
      destruct (mapM build_record rows) as [recs|e]; result_simpl; [|reflexivity].
      destruct (has_coordinates record) eqn:E.
      * rewrite filter_cons_True by done. by rewrite <- app_assoc.
      * rewrite filter_cons_False by (by rewrite E). reflexivity.
    + assert (validate_row acc row = Raise e) as ->
        by (unfold validate_row; by rewrite Hb).
      reflexivity.
Qed.

(** C2: a row whose coordinates both normalize to floats is not always
    included. With latitude "45.0", longitude "10.0" and a year that is the
    float infinity, building the record raises [OverflowError] (from
    [int(inf)], which the field normalizer does not catch): the row is not
    appended, the loop ends with that error and returns no record, not even
    that of the valid row before it. A latitude that is an int too large for
    a float does the same: the row is not dropped quietly, the loop ends. *)
Theorem valid_coordinates_row_not_kept :
  (normalizes_to_float (row_get row_inf_year "decimalLatitude") ∧
   normalizes_to_float (row_get row_inf_year "decimalLongitude")) ∧
  build_record row_inf_year = Raise OverflowError ∧
  (∀ records : list clean_record,
     validate_row records row_inf_year = Raise OverflowError) ∧
  validate_rows [row_text; row_inf_year] = Raise OverflowError ∧
  validate_rows [row_999; row_big_latitude] = Raise OverflowError.
Proof.
  assert (Hbuild : build_record row_inf_year = Raise OverflowError)
    by (vm_compute; reflexivity).
  repeat apply conj.
  - exists (S754_finite false 6333186975989760 (-47)). vm_compute. reflexivity.
  - exists (Py.float_of_Z 10). vm_compute. reflexivity.
  - exact Hbuild.
  - intros records. unfold validate_row. by rewrite Hbuild.
  - vm_compute. reflexivity.
  - vm_compute. reflexivity.
Qed.

(** X29: a record built from a raw row enters the validated output exactly
    when both raw coordinates normalize to non-null floats; a row that is
    dropped leaves the output as it was; when every row builds, the loop
    returns the built records that pass, in the order of the rows; the row
    with latitude "abc" and longitude "10.0" is dropped. *)
Theorem record_kept_iff_coordinates :
  (∀ (row : gmap string pyval) (record : clean_record),
     build_record row = Ok record →
     has_coordinates record = true ↔
     normalizes_to_float (row_get row "decimalLatitude") ∧
     normalizes_to_float (row_get row "decimalLongitude")) ∧
  (∀ (records : list clean_record) (row : gmap string pyval) (record : clean_record),
     build_record row = Ok record →
     validate_row records row =
     Ok (if has_coordinates record then records ++ [record] else records)) ∧
  (∀ (df_clean : list (gmap string pyval)) (built : list clean_record),
     mapM build_record df_clean = Ok built →
     validate_rows df_clean = Ok (filter (λ r, has_coordinates r = true) built)) ∧
  (build_record row_abc = Ok (coordinates_only PyNone (PyFloat (Py.float_of_Z 10))) ∧
   (∀ records : list clean_record, validate_row records row_abc = Ok records) ∧
   validate_rows [row_abc] = Ok []).
Proof.
  split; [exact has_coordinates_iff|].
  split; [exact validate_row_eq|].
  split.
  - intros df_clean built Hbuilt. unfold validate_rows.
    rewrite for_each_validate_row, Hbuilt. reflexivity.
  - assert (Habc : build_record row_abc
                   = Ok (coordinates_only PyNone (PyFloat (Py.float_of_Z 10))))
      by (by vm_compute).
    split; [exact Habc|]. split.
    + intros records. by rewrite (validate_row_eq _ _ _ Habc).
    + unfold validate_rows. cbn [for_each].
      by rewrite (validate_row_eq _ _ _ Habc).
Qed.

Lemma record_kept_iff_coordinates_witness :
  build_record row_999 =
    Ok (coordinates_only (PyFloat (Py.float_of_Z 999)) (PyFloat (Py.float_of_Z 10))) ∧
  mapM build_record [row_999; row_abc] =
    Ok [coordinates_only (PyFloat (Py.float_of_Z 999)) (PyFloat (Py.float_of_Z 10));
        coordinates_only PyNone (PyFloat (Py.float_of_Z 10))] ∧
  validate_row [] row_999 =
    Ok [coordinates_only (PyFloat (Py.float_of_Z 999)) (PyFloat (Py.float_of_Z 10))] ∧
  validate_rows [row_999; row_abc] =
    Ok [coordinates_only (PyFloat (Py.float_of_Z 999)) (PyFloat (Py.float_of_Z 10))].
Proof.
  assert (H999 : build_record row_999 =
    Ok (coordinates_only (PyFloat (Py.float_of_Z 999)) (PyFloat (Py.float_of_Z 10))))
    by (vm_compute; reflexivity).
  assert (Hboth : mapM build_record [row_999; row_abc] =
    Ok [coordinates_only (PyFloat (Py.float_of_Z 999)) (PyFloat (Py.float_of_Z 10));
        coordinates_only PyNone (PyFloat (Py.float_of_Z 10))])
    by (vm_compute; reflexivity).
  refine (conj H999 (conj Hboth (conj _ _))).
  - exact (proj1 (proj2 record_kept_iff_coordinates) [] row_999 _ H999).
  - exact (proj1 (proj2 (proj2 record_kept_iff_coordinates)) _ _ Hboth).
Defined.

(** C9: a row whose coordinates convert to floats is not always retained.
    With latitude 999.0, longitude 10.0 and a year that is the float
    infinity, both coordinates normalize to those floats, yet building the
    record raises [OverflowError] and the loop returns no record. *)
Theorem out_of_range_row_not_kept :
  safe_convert (row_get row_999_inf_year "decimalLatitude") (Some Py.float) =
    Ok (PyFloat (Py.float_of_Z 999)) ∧
  safe_convert (row_get row_999_inf_year "decimalLongitude") (Some Py.float) =
    Ok (PyFloat (Py.float_of_Z 10)) ∧
  SFleb (Py.float_of_Z 999) (Py.float_of_Z 90) = false ∧
  build_record row_999_inf_year = Raise OverflowError ∧
  validate_rows [row_999_inf_year] = Raise OverflowError.
Proof. repeat apply conj; vm_compute; reflexivity. Qed.

(** X30: the coordinate test is a null test only. For a row whose record is
    built, whatever floats the raw coordinates normalize to, the record
    carries them unchanged and is retained; latitude 999.0, outside
    [-90, 90], is kept. *)
Theorem no_coordinate_range_check :
  (∀ (records : list clean_record) (row : gmap string pyval) (record : clean_record)
     (x y : spec_float),
     build_record row = Ok record →
     safe_convert (row_get row "decimalLatitude") (Some Py.float) = Ok (PyFloat x) →
     safe_convert (row_get row "decimalLongitude") (Some Py.float) = Ok (PyFloat y) →
     decimal_latitude record = PyFloat x ∧ decimal_longitude record = PyFloat y ∧
     validate_row records row = Ok (records ++ [record])) ∧
  (SFleb (Py.float_of_Z 999) (Py.float_of_Z 90) = false ∧
   validate_rows [row_999] =
     Ok [coordinates_only (PyFloat (Py.float_of_Z 999)) (PyFloat (Py.float_of_Z 10))]).
Proof.
  split.
  - intros records row record x y Hb Hlat Hlon.
    destruct (build_record_coordinates _ _ Hb) as [Hlat' Hlon'].
    rewrite Hlat in Hlat'. rewrite Hlon in Hlon'.
    injection Hlat' as Hx. injection Hlon' as Hy.
    rewrite (validate_row_eq _ _ _ Hb). unfold has_coordinates.
    rewrite <- Hx, <- Hy. by repeat apply conj.
  - split; by vm_compute.
Qed.

Lemma no_coordinate_range_check_witness :
  build_record row_999 =
    Ok (coordinates_only (PyFloat (Py.float_of_Z 999)) (PyFloat (Py.float_of_Z 10))) ∧
  validate_row [] row_999 =
    Ok ([] ++ [coordinates_only (PyFloat (Py.float_of_Z 999)) (PyFloat (Py.float_of_Z 10))]).
Proof.
  assert (H999 : build_record row_999 =
    Ok (coordinates_only (PyFloat (Py.float_of_Z 999)) (PyFloat (Py.float_of_Z 10))))
    by (vm_compute; reflexivity).
  split; [exact H999|].
  refine (proj2 (proj2 (proj1 no_coordinate_range_check [] row_999 _
            (Py.float_of_Z 999) (Py.float_of_Z 10) H999 _ _)));
    vm_compute; reflexivity.
Defined.

(** By contrast the filter of [process_haedat.py] does check the ranges: it
    rejects latitude 999.0. *)
Lemma haedat_coord_mask_checks_range :
  Haedat.coord_mask (PyFloat (Py.float_of_Z 999)) (PyFloat (Py.float_of_Z 10)) = Ok false ∧
  Haedat.coord_mask (PyFloat (Py.float_of_Z 45)) (PyFloat (Py.float_of_Z 10)) = Ok true.
Proof. split; by vm_compute. Qed.

(** ** The batch insert loop *)

Lemma length_slice {A} (l : list A) (i j : nat) :
  length (slice l i j) = min (j - i) (length l - i).
Proof. unfold slice. by rewrite length_take, length_drop. Qed.

Lemma py_range_250 : py_range 0 250 batch_size = [0; 100; 200].
Proof. reflexivity. Qed.

Lemma py_range_0 : py_range 0 0 batch_size = [].
Proof. reflexivity. Qed.

(** The three contiguous batches of 250 records. *)
Lemma slices_250 {A} (l : list A) :
  length l = 250 →
  length (slice l 0 100) = 100 ∧ length (slice l 100 200) = 100 ∧
  length (slice l 200 300) = 50 ∧
  slice l 0 100 ++ slice l 100 200 ++ slice l 200 300 = l.
Proof.
  intros Hl. rewrite !length_slice, Hl. repeat apply conj; try reflexivity.
  unfold slice. cbn [Nat.sub drop].
  replace (take 100 (drop 200 l)) with (drop 200 l)
    by (symmetry; apply take_ge; rewrite length_drop; lia).
  rewrite <- (take_drop 100 l) at 4.
  f_equal.
  rewrite <- (take_drop 100 (drop 100 l)) at 2.
  f_equal. by rewrite drop_drop.
Qed.

Section LoaderFacts.

Context {store : Type}.
Variable insert_execute : list clean_record → store → store * option pyexn.

Lemma run_bind {A B} (m : script store A) (f : A → script store B) (w : world store) :
  run (m ≫= f) w =
  match run m w with
  | (Ok a, w') => run (f a) w'
  | (Raise e, w') => (Raise e, w')
  end.
Proof. reflexivity. Qed.

Lemma run_for_each_cons {A S} (x : A) (xs : list A) (s : S)
    (body : S → A → script store S) (w : world store) :
  run (for_each (x :: xs) s body) w =
  match run (body s x) w with
  | (Ok s', w') => run (for_each xs s' body) w'
  | (Raise e, w') => (Raise e, w')
  end.
Proof. reflexivity. Qed.

(** One turn of the loop when the insert succeeds. *)
Lemma run_insert_batch_ok (records : list clean_record) (total_inserted i : nat)
    (w : world store) (d : store) :
  insert_execute (slice records i (i + batch_size)) (db w) = (d, None) →
  run (insert_batch insert_execute records total_inserted i) w =
  (Ok (total_inserted + length (slice records i (i + batch_size))),
   {| db := d;
      trace := trace w ++
        [Insert (slice records i (i + batch_size));
         Print (InsertedBatch (i / batch_size + 1)
                  (total_inserted + length (slice records i (i + batch_size)))
                  (length records))] |}).
Proof.
  intros Hins. unfold insert_batch.
  cbn [run mbind script_bind table_insert emit mret script_ret].
  rewrite Hins. cbn [db trace]. by rewrite <- app_assoc.
Qed.

(** One turn of the loop when the insert fails: nothing is reported. *)
Lemma run_insert_batch_fails (records : list clean_record) (total_inserted i : nat)
    (w : world store) (d : store) (e : pyexn) :
  insert_execute (slice records i (i + batch_size)) (db w) = (d, Some e) →
  run (insert_batch insert_execute records total_inserted i) w =
  (Raise e,
   {| db := d; trace := trace w ++ [Insert (slice records i (i + batch_size))] |}).
Proof.
  intros Hins. unfold insert_batch.
  cbn [run mbind script_bind table_insert emit mret script_ret].
  by rewrite Hins.
Qed.

(** The [try] block once the rows are validated: the two lines, the loop,
    and the handler when the loop raises. *)
Lemma run_save_to_supabase (df_clean : list (gmap string pyval))
    (records : list clean_record) (w : world store) :
  validate_rows df_clean = Ok records →
  run (save_to_supabase insert_execute df_clean) w =
  match run (insert_batches insert_execute records)
            {| db := db w;
               trace := trace w ++ [Print Saving; Print (Prepared (length records))] |} with
  | (Ok _, w') => (Ok tt, w')
  | (Raise e, w') =>
      (Ok tt,
       {| db := db w'; trace := trace w' ++ [Log (ErrorSaving e); Log BackupNote] |})
  end.
Proof.
  intros Hvalid. unfold save_to_supabase, try_script, lift.
  cbn [run mbind script_bind emit mret script_ret db trace]. rewrite Hvalid.
  cbn [run mbind script_bind emit mret script_ret db trace].
  rewrite <- app_assoc. cbn [app].
  rewrite (run_bind (insert_batches insert_execute records)).
  destruct (run (insert_batches insert_execute records) _) as [[n|e] w'];
    [reflexivity|].
  by rewrite <- app_assoc.
Qed.

(** C8: with no valid record the loader issues no insert request, reports a
    total of 0 and ends without error, whatever the store would do. *)
Theorem no_records_no_insert :
  (∀ w : world store,
     run (insert_batches insert_execute []) w =
       (Ok 0, {| db := db w; trace := trace w ++ [Print (Saved 0)] |})) ∧
  (∀ (df_clean : list (gmap string pyval)) (w : world store),
     validate_rows df_clean = Ok [] →
     run (save_to_supabase insert_execute df_clean) w =
       (Ok tt,
        {| db := db w;
           trace := trace w ++ [Print Saving; Print (Prepared 0); Print (Saved 0)] |})) ∧
  inserts_of [Print Saving; Print (Prepared 0); Print (Saved 0)] = [].
Proof.
  assert (Hloop : ∀ w : world store,
     run (insert_batches insert_execute []) w =
       (Ok 0, {| db := db w; trace := trace w ++ [Print (Saved 0)] |}))
    by reflexivity.
  split; [exact Hloop|]. split; [|reflexivity].
  intros df_clean w Hvalid.
  rewrite (run_save_to_supabase df_clean [] w Hvalid), Hloop.
  cbn [db trace length]. by rewrite <- app_assoc.
Qed.

(** C1: 250 records go out as the three contiguous batches of 100, 100 and
    50 records, in that order. When the insert of the second batch fails, the
    loop ends with that error: the only total reported is 100, the second
    batch was requested once, the third never, and the handler around the
    loop logs the error. *)
Theorem batches_of_250 (records : list clean_record) (w : world store) :
  length records = 250 →
  let b1 := slice records 0 100 in
  let b2 := slice records 100 200 in
  let b3 := slice records 200 300 in
  (length b1 = 100 ∧ length b2 = 100 ∧ length b3 = 50 ∧ b1 ++ b2 ++ b3 = records) ∧
  (∀ d1 d2 d3 : store,
     insert_execute b1 (db w) = (d1, None) →
     insert_execute b2 d1 = (d2, None) →
     insert_execute b3 d2 = (d3, None) →
     run (insert_batches insert_execute records) w =
       (Ok 250,
        {| db := d3;
           trace := trace w ++
             [Insert b1; Print (InsertedBatch 1 100 250);
              Insert b2; Print (InsertedBatch 2 200 250);
              Insert b3; Print (InsertedBatch 3 250 250);
              Print (Saved 250)] |})) ∧
  (∀ (d1 d2 : store) (e : pyexn),
     insert_execute b1 (db w) = (d1, None) →
     insert_execute b2 d1 = (d2, Some e) →
     run (insert_batches insert_execute records) w =
       (Raise e,
        {| db := d2;
           trace := trace w ++
             [Insert b1; Print (InsertedBatch 1 100 250); Insert b2] |}) ∧
     ∀ df_clean : list (gmap string pyval),
       validate_rows df_clean = Ok records →
       run (save_to_supabase insert_execute df_clean) w =
         (Ok tt,
          {| db := d2;
             trace := trace w ++
               [Print Saving; Print (Prepared 250);
                Insert b1; Print (InsertedBatch 1 100 250); Insert b2;
                Log (ErrorSaving e); Log BackupNote] |})).
Proof.
  intros Hlen b1 b2 b3.
  destruct (slices_250 records Hlen) as (Hl1 & Hl2 & Hl3 & Happ).
  split; [done|].
  assert (Hfail : ∀ (w : world store) (d1 d2 : store) (e : pyexn),
     insert_execute b1 (db w) = (d1, None) →
     insert_execute b2 d1 = (d2, Some e) →
     run (insert_batches insert_execute records) w =
       (Raise e,
        {| db := d2;
           trace := trace w ++
             [Insert b1; Print (InsertedBatch 1 100 250); Insert b2] |})).
  { intros w' d1 d2 e H1 H2. unfold insert_batches.
    rewrite Hlen, py_range_250, run_bind, run_for_each_cons.
    rewrite run_insert_batch_ok with (d := d1) by exact H1.
    rewrite run_for_each_cons.
    rewrite run_insert_batch_fails with (d := d2) (e := e) by exact H2.
    cbn [trace]. rewrite <- app_assoc.
    change (slice records 0 (0 + batch_size)) with (slice records 0 100).
    by rewrite Hl1, Hlen. }
  split.
  - intros d1 d2 d3 H1 H2 H3. unfold insert_batches.
    rewrite Hlen, py_range_250, run_bind, run_for_each_cons.
    rewrite run_insert_batch_ok with (d := d1) by exact H1.
    rewrite run_for_each_cons.
    rewrite run_insert_batch_ok with (d := d2) by exact H2.
    rewrite run_for_each_cons.
    rewrite run_insert_batch_ok with (d := d3) by exact H3.
    cbn [for_each run mret script_ret mbind script_bind emit db trace].
    rewrite <- !app_assoc.
    change (slice records 0 (0 + batch_size)) with (slice records 0 100).
    change (slice records 100 (100 + batch_size)) with (slice records 100 200).
    change (slice records 200 (200 + batch_size)) with (slice records 200 300).
    by rewrite Hl1, Hl2, Hl3, Hlen.
  - intros d1 d2 e H1 H2. split; [exact (Hfail w d1 d2 e H1 H2)|].
    intros df_clean Hvalid.
    rewrite (run_save_to_supabase df_clean records w Hvalid).
    rewrite Hlen.
    rewrite (Hfail {| db := db w; trace := trace w ++ [Print Saving; Print (Prepared 250)] |}
               d1 d2 e H1 H2).
    cbn [db trace]. by rewrite <- !app_assoc.
Qed.

End LoaderFacts.

Lemma no_records_no_insert_witness :
  validate_rows [row_abc] = Ok [] ∧
  run (save_to_supabase fails_second [row_abc]) fresh =
    (Ok tt,
     {| db := db fresh;
        trace := trace fresh ++ [Print Saving; Print (Prepared 0); Print (Saved 0)] |}).
Proof.
  assert (Hvalid : validate_rows [row_abc] = Ok []) by (vm_compute; reflexivity).
  split; [exact Hvalid|].
  exact (proj1 (proj2 (no_records_no_insert fails_second)) [row_abc] fresh Hvalid).
Defined.

Lemma batches_of_250_witness :
  length records_250 = 250 ∧
  fails_second (slice records_250 0 100) (db fresh) = (1, None) ∧
  fails_second (slice records_250 100 200) 1 = (2, Some (StoreError "insert failed")) ∧
  run (insert_batches fails_second records_250) fresh =
    (Raise (StoreError "insert failed"),
     {| db := 2;
        trace := trace fresh ++
          [Insert (slice records_250 0 100); Print (InsertedBatch 1 100 250);
           Insert (slice records_250 100 200)] |}).
Proof.
  assert (Hlen : length records_250 = 250) by reflexivity.
  assert (H1 : fails_second (slice records_250 0 100) (db fresh) = (1, None))
    by reflexivity.
  assert (H2 : fails_second (slice records_250 100 200) 1
               = (2, Some (StoreError "insert failed"))) by reflexivity.
  refine (conj Hlen (conj H1 (conj H2 _))).
  exact (proj1 (proj2 (proj2 (batches_of_250 fails_second records_250 fresh Hlen))
                  1 2 (StoreError "insert failed") H1 H2)).
Defined.


(** * Further properties *)

(** ** Text of numbers *)

Lemma code_chr (n : Z) : (0 <= n < 256)%Z → Str.code (Str.chr n) = n.
Proof.
  intros Hn. unfold Str.code, Str.chr.
  rewrite N_ascii_embedding by lia. lia.
Qed.

Lemma is_digit_chr (n : Z) : Str.is_digit (Str.chr (48 + n mod 10)) = true.
Proof.
  assert (0 <= n mod 10 < 10)%Z by (apply Z.mod_pos_bound; lia).
  unfold Str.is_digit. rewrite code_chr by lia. lia.
Qed.

Lemma decimal_go_digits (fuel : nat) (n : Z) (acc : string) :
  Str.all Str.is_digit acc = true →
  Str.all Str.is_digit (Str.decimal_go fuel n acc) = true.
Proof.
  revert n acc. induction fuel as [|fuel IH]; intros n acc Hacc; simpl; [exact Hacc|].
  assert (Hacc' : Str.all Str.is_digit (String (Str.chr (48 + n mod 10)) acc) = true)
    by (simpl; by rewrite is_digit_chr, Hacc).
  destruct (n <? 10)%Z; [exact Hacc'|by apply IH].
Qed.

Lemma decimal_go_nonempty (fuel : nat) (n : Z) (acc : string) :
  Str.decimal_go (S fuel) n acc ≠ EmptyString.
Proof.
  revert n acc. induction fuel as [|fuel IH]; intros n acc.
  - simpl. by destruct (n <? 10)%Z.
  - change (Str.decimal_go (S (S fuel)) n acc) with
      (let acc' := String (Str.chr (48 + n mod 10)) acc in
       if (n <? 10)%Z then acc' else Str.decimal_go (S fuel) (n / 10) acc').
    cbv zeta. destruct (n <? 10)%Z; [discriminate|apply IH].
Qed.

Lemma decimal_digits (n : Z) : Str.all Str.is_digit (Str.decimal n) = true.
Proof. by apply decimal_go_digits. Qed.

Lemma decimal_nonempty (n : Z) : Str.decimal n ≠ EmptyString.
Proof. apply decimal_go_nonempty. Qed.

Lemma all_digits_good_head (s : string) :
  Str.all Str.is_digit s = true → s ≠ EmptyString → good_head s = true.
Proof.
  destruct s as [|c s]; [done|]. simpl. intros [-> _]%andb_true_iff _. reflexivity.
Qed.

Lemma append_cons (c : ascii) (s t : string) : String c s +:+ t = String c (s +:+ t).
Proof. reflexivity. Qed.

Lemma append_nil (t : string) : EmptyString +:+ t = t.
Proof. reflexivity. Qed.

Lemma good_head_append (s t : string) : good_head s = true → good_head (s +:+ t) = true.
Proof. destruct s as [|c s]; [discriminate|]. by rewrite append_cons. Qed.

(** A text with such a first character is no blank marker. *)
Lemma good_head_not_blank (s : string) :
  good_head s = true → Str.mem (Str.lower s) ["nan"; "none"; ""] = false.
Proof.
  destruct s as [|c s]; [discriminate|].
  destruct c as [[] [] [] [] [] [] [] []]; try discriminate; intros _; reflexivity.
Qed.

Lemma all_rev_app (p : ascii → bool) (s1 s2 : string) :
  Str.all p (String.rev_app s1 s2) = Str.all p s1 && Str.all p s2.
Proof.
  revert s2. induction s1 as [|c s1 IH]; intros s2; simpl; [reflexivity|].
  rewrite IH. simpl. by rewrite andb_assoc, (andb_comm (Str.all p s1)).
Qed.

Lemma all_rev (p : ascii → bool) (s : string) : Str.all p (String.rev s) = Str.all p s.
Proof. unfold String.rev. rewrite all_rev_app. simpl. by rewrite andb_true_r. Qed.

Lemma all_strip_zeros_rev (p : ascii → bool) (s : string) :
  Str.all p s = true → Str.all p (Py.strip_zeros_rev s) = true.
Proof.
  induction s as [|c s IH]; [done|]. intros H. simpl in H.
  apply andb_true_iff in H as [Hc Hs].
  assert (Hcs : Str.all p (String c s) = true) by (simpl; by rewrite Hc, Hs).
  simpl. destruct c as [[] [] [] [] [] [] [] []]; auto.
Qed.

Lemma format_repr_good_head (ds : string) (decpt : Z) :
  Str.all Str.is_digit ds = true → good_head (Py.format_repr ds decpt) = true.
Proof.
  intros Hds. unfold Py.format_repr.
  destruct ((decpt <=? -4)%Z || (16 <? decpt)%Z).
  { destruct ds as [|c ds]; [reflexivity|].
    simpl in Hds. apply andb_true_iff in Hds as [Hc _].
    change (Str.take 1 (String c ds)) with (String c EmptyString).
    rewrite append_cons. simpl. by rewrite Hc. }
  destruct (decpt <=? 0)%Z; [reflexivity|].
  destruct ds as [|c ds].
  - destruct (_ <=? _)%Z.
    + rewrite append_nil. simpl.
      destruct (Z.to_nat decpt - 0); reflexivity.
    + by destruct (Z.to_nat decpt).
  - simpl in Hds. apply andb_true_iff in Hds as [Hc _].
    destruct (_ <=? _)%Z.
    + rewrite append_cons. simpl. by rewrite Hc.
    + destruct (Z.to_nat decpt); [reflexivity|].
      simpl Str.take. rewrite append_cons. simpl. by rewrite Hc.
Qed.

(** The text of a float that is not NaN is no blank marker. *)
Lemma float_repr_good_head (f : spec_float) :
  f ≠ S754_nan → good_head (Py.float_repr f) = true.
Proof.
  destruct f as [s|s| |s m e]; [by destruct s|by destruct s|done|]. intros _.
  unfold Py.float_repr. destruct (Py.shortest m e) as [c k].
  cbv zeta. destruct s; [reflexivity|]. rewrite append_nil.
  apply format_repr_good_head.
  rewrite all_rev. apply all_strip_zeros_rev. rewrite all_rev. apply decimal_digits.
Qed.

(** The text of an int is no blank marker. *)
Lemma int_str_good_head (n : Z) (s : string) :
  Py.int_str n = Ok s → good_head s = true.
Proof.
  unfold Py.int_str. destruct (_ <=? _); [|discriminate]. intros [= <-].
  destruct (n <? 0)%Z; [reflexivity|]. rewrite append_nil.
  apply all_digits_good_head; [apply decimal_digits|apply decimal_nonempty].
Qed.

(** ** More on the field normalizer *)

Lemma safe_convert_not_blank (value : pyval) (s : string)
    (convert_func : option (pyval → result pyval)) :
  Py.isna value = false → Py.str value = Ok s → good_head s = true →
  safe_convert value convert_func =
  try_except
    (match convert_func with
     | Some f => f value
     | None => Ok value
     end)
    ValueError_or_TypeError (Ok PyNone).
Proof.
  intros Hna Hs Hhead. unfold safe_convert. rewrite Hna.
  destruct value; [discriminate| | |]; simpl is_None; cbv iota;
    rewrite Hs; result_simpl; by rewrite (good_head_not_blank s Hhead).
Qed.

Lemma safe_convert_float_eq (f : spec_float) :
  safe_convert (PyFloat f) None =
    Ok (match f with S754_nan => PyNone | _ => PyFloat f end) ∧
  safe_convert (PyFloat f) (Some Py.float) =
    Ok (match f with S754_nan => PyNone | _ => PyFloat f end) ∧
  safe_convert (PyFloat f) (Some Py.int) =
    match f with
    | S754_nan => Ok PyNone
    | S754_infinity _ => Raise OverflowError
    | S754_zero _ => Ok (PyInt 0)
    | S754_finite s m e => Ok (PyInt (cond_Zopp s (Z.shiftl (Zpos m) e)))
    end.
Proof.
  assert (Hcases : f = S754_nan ∨ f ≠ S754_nan)
    by (destruct f; (by left) || (by right)).
  destruct Hcases as [->|Hf]; [by repeat apply conj|].
  assert (Hna : Py.isna (PyFloat f) = false) by (by destruct f).
  pose proof (float_repr_good_head f Hf) as Hhead.
  repeat apply conj;
    rewrite (safe_convert_not_blank (PyFloat f) (Py.float_repr f) _ Hna eq_refl Hhead);
    by destruct f.
Qed.

(** X1: a float cell that is not NaN is never taken for a blank. Without a
    conversion and under [float] it is returned as it is; under [int] a finite
    float is truncated toward zero and an infinite one raises
    [OverflowError]. NaN gives null under every conversion. *)
Theorem safe_convert_of_float (f : spec_float) :
  safe_convert (PyFloat f) None =
    Ok (match f with S754_nan => PyNone | _ => PyFloat f end) ∧
  safe_convert (PyFloat f) (Some Py.float) =
    Ok (match f with S754_nan => PyNone | _ => PyFloat f end) ∧
  safe_convert (PyFloat f) (Some Py.int) =
    match f with
    | S754_nan => Ok PyNone
    | S754_infinity _ => Raise OverflowError
    | S754_zero _ => Ok (PyInt 0)
    | S754_finite s m e => Ok (PyInt (cond_Zopp s (Z.shiftl (Zpos m) e)))
    end.
Proof. exact (safe_convert_float_eq f). Qed.

Lemma safe_convert_raises_cases (value : pyval) (c : conversion) (e : pyexn) :
  safe_convert value (convert_func_of c) = Raise e ↔
  (∃ n : Z, value = PyInt n ∧
     Py.int_max_str_digits < Str.len (Str.decimal (Z.abs n)) ∧ e = ValueError) ∨
  (∃ (n : Z) (s : bool), value = PyInt n ∧
     Str.len (Str.decimal (Z.abs n)) ≤ Py.int_max_str_digits ∧
     c = ToFloat ∧ Py.float_of_Z n = S754_infinity s ∧ e = OverflowError) ∨
  (∃ s : bool, value = PyFloat (S754_infinity s) ∧ c = ToInt ∧ e = OverflowError).
Proof.
  destruct value as [|f|n|t].
  - (* None *)
    split; [discriminate|]. intros [(n & [=] & _)|[(n & s & [=] & _)|(s & [=] & _)]].
  - (* float *)
    destruct (safe_convert_float_eq f) as (HN & HF & HI).
    destruct c; simpl convert_func_of; rewrite ?HN, ?HF, ?HI.
    + split; [discriminate|].
      intros [(n & [=] & _)|[(n & s & [=] & _)|(s & _ & [=] & _)]].
    + split; [discriminate|].
      intros [(n & [=] & _)|[(n & s & [=] & _)|(s & _ & [=] & _)]].
    + split.
      * destruct f as [s|s| |s m e']; try discriminate. intros [= <-].
        right; right. by exists s.
      * intros [(n & [=] & _)|[(n & s & [=] & _)|(s & [= ->] & _ & ->)]]. reflexivity.
  - (* int *)
    unfold safe_convert. simpl Py.isna. simpl is_None. cbv iota.
    simpl Py.str. unfold Py.int_str.
    destruct (Str.len (Str.decimal (Z.abs n)) <=? Py.int_max_str_digits) eqn:Elen.
    + apply Nat.leb_le in Elen.
      assert (Hhead : good_head ((if (n <? 0)%Z then "-" else "") +:+ Str.decimal (Z.abs n)) = true).
      { apply (int_str_good_head n). unfold Py.int_str.
        by rewrite (proj2 (Nat.leb_le _ _) Elen). }
      result_simpl. rewrite (good_head_not_blank _ Hhead).
      destruct c; simpl convert_func_of; unfold try_except.
      * split; [discriminate|].
        intros [(n' & [= <-] & Hlen & _)|[(n' & s & _ & _ & [=] & _)|(s & [=] & _)]]. lia.
      * simpl Py.float. unfold Py.float_of_int.
        destruct (Py.float_of_Z n) as [s|s| |s m e'] eqn:Ef; result_simpl;
          try (split; [discriminate|];
               intros [(n' & [= <-] & Hlen & _)|[(n' & s' & [= <-] & _ & _ & Hinf & _)|(s' & [=] & _)]];
               [lia|congruence]).
        simpl. split.
        -- intros [= <-]. right; left. by exists n, s.
        -- intros [(n' & [= <-] & Hlen & _)|[(n' & s' & _ & _ & _ & _ & ->)|(s' & [=] & _)]];
             [lia|reflexivity].
      * simpl. split; [discriminate|].
        intros [(n' & [= <-] & Hlen & _)|[(n' & s & _ & _ & [=] & _)|(s & [=] & _)]]. lia.
    + apply Nat.leb_gt in Elen. result_simpl. split.
      * intros [= <-]. left. by exists n.
      * intros [(n' & _ & _ & ->)|[(n' & s & [= <-] & Hlen & _)|(s & [=] & _)]];
          [reflexivity|lia].
  - (* str *)
    split.
    + intros H. exfalso.
      destruct (safe_convert_str_total t (convert_func_of c)) as [r Hr];
        [destruct c; auto|congruence].
    + intros [(n & [=] & _)|[(n & s & [=] & _)|(s & [=] & _)]].
Qed.

(** X2: under the conversions the script uses, the field normalizer raises in
    three cases only: the value is an int of more than 4300 digits
    ([ValueError], from [str]); the value is an int too large for a float and
    the conversion is [float] ([OverflowError]); the value is an infinite
    float and the conversion is [int] ([OverflowError]). *)
Theorem safe_convert_raises_iff (value : pyval) (c : conversion) (e : pyexn) :
  safe_convert value (convert_func_of c) = Raise e ↔
  (∃ n : Z, value = PyInt n ∧
     Py.int_max_str_digits < Str.len (Str.decimal (Z.abs n)) ∧ e = ValueError) ∨
  (∃ (n : Z) (s : bool), value = PyInt n ∧
     Str.len (Str.decimal (Z.abs n)) ≤ Py.int_max_str_digits ∧
     c = ToFloat ∧ Py.float_of_Z n = S754_infinity s ∧ e = OverflowError) ∨
  (∃ s : bool, value = PyFloat (S754_infinity s) ∧ c = ToInt ∧ e = OverflowError).
Proof. exact (safe_convert_raises_cases value c e). Qed.

(** X3: the kind of a result: without a conversion the field normalizer
    returns null or the value itself, under [float] null or a float, under
    [int] null or an int. *)
Theorem safe_convert_result_kind (value r : pyval) (c : conversion) :
  safe_convert value (convert_func_of c) = Ok r →
  r = PyNone ∨
  match c with
  | AsIs => r = value
  | ToFloat => ∃ f : spec_float, r = PyFloat f
  | ToInt => ∃ n : Z, r = PyInt n
  end.
Proof.
  unfold safe_convert.
  destruct (Py.isna value); [intros [= <-]; by left|].
  destruct (is_None value); [intros [= <-]; by left|].
  destruct (Py.str value) as [s|e]; result_simpl; [|discriminate].
  destruct (Str.mem _ _); [intros [= <-]; by left|].
  unfold try_except. destruct c; simpl convert_func_of; cbv iota.
  - intros [= <-]. by right.
  - destruct (Py.float value) as [r'|e] eqn:Ef.
    + intros [= <-]. right.
      destruct value as [|f|n|t]; simpl in Ef; [discriminate|by simplify_eq; eauto| |].
      * destruct (Py.float_of_int n); simplify_eq/=; eauto.
      * destruct (Py.float_of_str t); simplify_eq/=; eauto.
    + destruct (ValueError_or_TypeError e); [intros [= <-]; by left|discriminate].
  - destruct (Py.int value) as [r'|e] eqn:Ef.
    + intros [= <-]. right.
      destruct value as [|f|n|t]; simpl in Ef; [discriminate| |by simplify_eq; eauto|].
      * destruct (Py.int_of_float f); simplify_eq/=; eauto.
      * destruct (Py.int_of_str t); simplify_eq/=; eauto.
    + destruct (ValueError_or_TypeError e); [intros [= <-]; by left|discriminate].
Qed.

Lemma safe_convert_result_kind_witness :
  safe_convert (PyStr "2021") (convert_func_of ToInt) = Ok (PyInt 2021) ∧
  (PyInt 2021 = PyNone ∨ ∃ n : Z, PyInt 2021 = PyInt n).
Proof.
  assert (H : safe_convert (PyStr "2021") (convert_func_of ToInt) = Ok (PyInt 2021))
    by (vm_compute; reflexivity).
  exact (conj H (safe_convert_result_kind (PyStr "2021") (PyInt 2021) ToInt H)).
Defined.

(** ** More on the date normalizer *)

Lemma starts_with_refl (s : string) : starts_with s s = true.
Proof. induction s as [|c s IH]; simpl; [done|]. by rewrite Ascii.eqb_refl. Qed.

Lemma starts_with_split_head (c : ascii) (s : string) :
  starts_with (Str.split_head c s) s = true.
Proof.
  induction s as [|d s IH]; simpl; [done|].
  destruct (Ascii.eqb d c); simpl; [done|]. by rewrite Ascii.eqb_refl.
Qed.

Lemma starts_with_take (n : nat) (s : string) : starts_with (Str.take n s) s = true.
Proof.
  revert s. induction n as [|n IH]; intros [|d s]; simpl; try done.
  rewrite Ascii.eqb_refl. apply IH.
Qed.

Lemma starts_with_trans (s t u : string) :
  starts_with s t = true → starts_with t u = true → starts_with s u = true.
Proof.
  revert t u. induction s as [|a s IH]; intros [|b t] [|c u]; simpl; try done.
  intros [Hab Hst]%andb_true_iff [Hbc Htu]%andb_true_iff.
  apply Ascii.eqb_eq in Hab as ->. rewrite Hbc. simpl. by apply (IH t).
Qed.

Lemma date_steps_prefix (s : string) : starts_with (date_cut (date_head s)) s = true.
Proof.
  apply (starts_with_trans _ (date_head s)).
  - unfold date_cut. destruct (_ && _); [apply starts_with_take|apply starts_with_refl].
  - unfold date_head. destruct (Str.contains _ _);
      [apply starts_with_split_head|apply starts_with_refl].
Qed.

Lemma date_cut_short (s : string) :
  Str.contains "T" (date_cut s) = true → Str.len (date_cut s) ≤ 19.
Proof.
  unfold date_cut. destruct (Str.contains "T" s) eqn:ET.
  - rewrite andb_true_l. destruct (19 <? Str.len s) eqn:E; intros _.
    + apply len_take.
    + by apply Nat.ltb_ge in E.
  - rewrite andb_false_l. congruence.
Qed.

Lemma safe_convert_date_raises_when (date_value : pyval) (e : pyexn) :
  safe_convert_date date_value = Raise e ↔
  ∃ n : Z, date_value = PyInt n ∧
    Py.int_max_str_digits < Str.len (Str.decimal (Z.abs n)) ∧ e = ValueError.
Proof.
  rewrite safe_convert_date_eq.
  assert (Hcheck : ∀ s, (if Str.mem (Str.lower s) ["nan"; "none"; ""] then Ok PyNone
                         else date_check (date_cut (date_head s))) ≠ Raise e).
  { intros s. destruct (Str.mem _ _); [discriminate|].
    rewrite date_check_eq. by destruct (Datetime.parse _). }
  destruct date_value as [|f|n|t]; simpl Py.isna; simpl is_None.
  - split; [discriminate|]. by intros (n & [=] & _).
  - destruct f; simpl; (split; [|by intros (n & [=] & _)]); try discriminate;
      intros H; by apply Hcheck in H.
  - simpl. unfold Py.int_str.
    destruct (Str.len (Str.decimal (Z.abs n)) <=? Py.int_max_str_digits) eqn:Elen.
    + apply Nat.leb_le in Elen. split.
      * intros H. by apply Hcheck in H.
      * intros (n' & [= <-] & Hlen & _). lia.
    + apply Nat.leb_gt in Elen. split.
      * intros [= <-]. by exists n.
      * by intros (n' & _ & _ & ->).
  - simpl. split; [|by intros (n & [=] & _)]. intros H. by apply Hcheck in H.
Qed.

(** X4: the date normalizer raises in one case only, an int of more than
    4300 digits, whose [str] raises [ValueError]; on every other value it
    returns. *)
Theorem safe_convert_date_raises_iff (date_value : pyval) (e : pyexn) :
  safe_convert_date date_value = Raise e ↔
  ∃ n : Z, date_value = PyInt n ∧
    Py.int_max_str_digits < Str.len (Str.decimal (Z.abs n)) ∧ e = ValueError.
Proof. exact (safe_convert_date_raises_when date_value e). Qed.

(** X5: a non-null result of the date normalizer is a string that starts the
    text of the value, holds no '/', and, when it holds a 'T', has at most 19
    characters. *)
Theorem safe_convert_date_result_shape (date_value r : pyval) :
  safe_convert_date date_value = Ok r → r ≠ PyNone →
  ∃ s t : string,
    Py.str date_value = Ok s ∧ r = PyStr t ∧
    starts_with t s = true ∧
    Str.contains "/" t = false ∧
    (Str.contains "T" t = true → Str.len t ≤ 19).
Proof.
  intros Hv Hr.
  destruct (safe_convert_date_Ok date_value r Hv Hr) as (s & Hs & _ & Hcheck).
  destruct (date_check_Ok _ _ Hcheck Hr) as [-> _].
  exists s, (date_cut (date_head s)). repeat apply conj; try done.
  - apply date_steps_prefix.
  - apply date_cut_no_slash, date_head_no_slash.
  - apply date_cut_short.
Qed.

Lemma safe_convert_date_result_shape_witness :
  safe_convert_date (PyStr "2021-05-03T10:00:00.000+02:00/2021-05-04")
    = Ok (PyStr "2021-05-03T10:00:00") ∧
  ∃ s t : string,
    Py.str (PyStr "2021-05-03T10:00:00.000+02:00/2021-05-04") = Ok s ∧
    PyStr "2021-05-03T10:00:00" = PyStr t ∧
    starts_with t s = true ∧
    Str.contains "/" t = false ∧
    (Str.contains "T" t = true → Str.len t ≤ 19).
Proof.
  assert (H : safe_convert_date (PyStr "2021-05-03T10:00:00.000+02:00/2021-05-04")
              = Ok (PyStr "2021-05-03T10:00:00")) by (vm_compute; reflexivity).
  refine (conj H _).
  apply (safe_convert_date_result_shape _ _ H). discriminate.
Defined.

(** X6: a missing date ([None] or NaN) and a date whose text is '', 'nan' or
    'none' in any case normalize to null. *)
Theorem safe_convert_date_blank (date_value : pyval) :
  Py.isna date_value = true ∨
  (∃ s, Py.str date_value = Ok s ∧ Str.mem (Str.lower s) ["nan"; "none"; ""] = true) →
  safe_convert_date date_value = Ok PyNone.
Proof.
  rewrite safe_convert_date_eq. intros [Hna|(s & Hs & Hblank)].
  - by rewrite Hna.
  - destruct (Py.isna date_value || is_None date_value); [reflexivity|].
    by rewrite Hs, Hblank.
Qed.

Lemma safe_convert_date_blank_witness :
  safe_convert_date (PyFloat S754_nan) = Ok PyNone ∧
  safe_convert_date (PyStr "NONE") = Ok PyNone.
Proof.
  split; apply safe_convert_date_blank.
  - left. reflexivity.
  - right. exists "NONE". split; reflexivity.
Defined.

(** ** More on the record validation loop *)

Lemma poisons_iff (c : conversion) (v : pyval) :
  poisons c v ↔ ∃ e, safe_convert v (convert_func_of c) = Raise e.
Proof.
  unfold poisons. split.
  - intros [(n & -> & Hlen)|[(n & s & -> & -> & Hinf)|(s & -> & ->)]].
    + exists ValueError. apply safe_convert_raises_cases. left. by exists n.
    + destruct (le_lt_dec (Str.len (Str.decimal (Z.abs n))) Py.int_max_str_digits).
      * exists OverflowError. apply safe_convert_raises_cases. right; left. by exists n, s.
      * exists ValueError. apply safe_convert_raises_cases. left. by exists n.
    + exists OverflowError. apply safe_convert_raises_cases. right; right. by exists s.
  - intros [e He]. apply safe_convert_raises_cases in He
      as [(n & -> & Hlen & _)|[(n & s & -> & _ & -> & Hinf & _)|(s & -> & -> & _)]].
    + left. by exists n.
    + right; left. by exists n, s.
    + right; right. by exists s.
Qed.

Lemma safe_convert_date_raises_cases (v : pyval) :
  poisons_date v ↔ ∃ e, safe_convert_date v = Raise e.
Proof.
  unfold poisons_date. split.
  - intros (n & -> & Hlen). exists ValueError.
    apply safe_convert_date_raises_when. by exists n.
  - intros [e (n & -> & Hlen & _)%safe_convert_date_raises_when]. by exists n.
Qed.

(** Steps through [build_record]: the next field either raises or is bound. *)
Ltac build_step :=
  match goal with
  | |- (∃ _, match ?x with Ok _ => _ | Raise _ => _ end = _) ↔ _ =>
      let r := fresh "r" in let e := fresh "e" in let E := fresh "E" in
      destruct x as [r|e] eqn:E
  end.

Lemma build_record_raises_cases (row : gmap string pyval) :
  (∃ e, build_record row = Raise e) ↔
  poisons AsIs (row_get row "scientificName") ∨
  poisons AsIs (row_get row "species") ∨
  poisons AsIs (row_get row "genus") ∨
  poisons AsIs (row_get row "family") ∨
  poisons AsIs (row_get row "order") ∨
  poisons ToFloat (row_get row "decimalLatitude") ∨
  poisons ToFloat (row_get row "decimalLongitude") ∨
  poisons ToInt (row_get row "year") ∨
  poisons ToInt (row_get row "month") ∨
  poisons ToInt (row_get row "day") ∨
  poisons_date (row_get row "eventDate").
Proof.
  rewrite !poisons_iff, safe_convert_date_raises_cases.
  unfold build_record. simpl convert_func_of. result_simpl.
  repeat (build_step;
          [|split; intros _; [repeat (first [left; by eexists|right])|]; by eexists]).
  split; [by intros [e [=]]|].
  intros H. repeat (destruct H as [[e [=]]|H]). by destruct H as [e [=]].
Qed.

(** X7: building the record of a row raises exactly when one of its cells
    makes its normalizer raise: an int of more than 4300 digits in any of the
    eleven columns, an int too large for a float in a coordinate column, or an
    infinite float in the year, month or day column. *)
Theorem build_record_raises_iff (row : gmap string pyval) :
  (∃ e, build_record row = Raise e) ↔
  poisons AsIs (row_get row "scientificName") ∨
  poisons AsIs (row_get row "species") ∨
  poisons AsIs (row_get row "genus") ∨
  poisons AsIs (row_get row "family") ∨
  poisons AsIs (row_get row "order") ∨
  poisons ToFloat (row_get row "decimalLatitude") ∨
  poisons ToFloat (row_get row "decimalLongitude") ∨
  poisons ToInt (row_get row "year") ∨
  poisons ToInt (row_get row "month") ∨
  poisons ToInt (row_get row "day") ∨
  poisons_date (row_get row "eventDate").
Proof. exact (build_record_raises_cases row). Qed.

Lemma text_never_poisons (c : conversion) (v : pyval) :
  is_text v = true → ¬ poisons c v.
Proof.
  destruct v; try discriminate;
    intros _ [(n & [=] & _)|[(n & b & [=] & _)|(b & [=] & _)]].
Qed.

Lemma text_never_poisons_date (v : pyval) : is_text v = true → ¬ poisons_date v.
Proof. destruct v; try discriminate; intros _ (n & [=] & _). Qed.

Lemma row_get_text (row : gmap string pyval) (name : string) :
  text_row row → is_text (row_get row name) = true.
Proof.
  intros Hrow. unfold row_get. destruct (row !! name) as [v|] eqn:E; simpl.
  - by apply (Hrow name).
  - done.
Qed.

Lemma build_record_text (row : gmap string pyval) :
  text_row row → ∃ record, build_record row = Ok record.
Proof.
  intros Hrow. destruct (build_record row) as [record|e] eqn:E; [by exists record|].
  exfalso.
  assert (Hraise : ∃ e, build_record row = Raise e) by (by exists e).
  apply build_record_raises_cases in Hraise.
  repeat (destruct Hraise as [Hraise|Hraise];
          [by apply text_never_poisons in Hraise; [|apply row_get_text]|]).
  by apply text_never_poisons_date in Hraise; [|apply row_get_text].
Qed.

Lemma mapM_Ok_Forall2 {A B} (f : A → result B) (l : list A) (k : list B) :
  mapM f l = Ok k ↔ Forall2 (λ x y, f x = Ok y) l k.
Proof.
  revert k. induction l as [|x l IH]; intros k; cbn [mapM].
  - split; [intros [= <-]; constructor|by inversion 1].
  - destruct (f x) as [y|e] eqn:Ef; result_simpl.
    + destruct (mapM f l) as [k'|e] eqn:El; result_simpl.
      * split.
        -- intros [= <-]. constructor; [done|by apply IH].
        -- inversion 1 as [|? y' ? k'' Hy Hk]; subst.
           apply IH in Hk as [= <-]. congruence.
      * split; [discriminate|].
        inversion 1 as [|? y' ? k'' Hy Hk]; subst. by apply IH in Hk.
    + split; [discriminate|]. inversion 1; congruence.
Qed.

Lemma mapM_Raise {A B} (f : A → result B) (l : list A) (e : pyexn) :
  mapM f l = Raise e ↔
  ∃ pre x post, l = pre ++ x :: post ∧
    Forall (λ x, ∃ y, f x = Ok y) pre ∧ f x = Raise e.
Proof.
  induction l as [|x l IH]; cbn [mapM].
  - split; [discriminate|]. intros (pre & y & post & Hl & _). by destruct pre.
  - destruct (f x) as [y|e'] eqn:Ef; result_simpl.
    + destruct (mapM f l) as [k'|e'] eqn:El; result_simpl.
      * split; [discriminate|].
        intros ([|x' pre] & z & post & [= <- Hl] & Hpre & Hz); [congruence|].
        apply Forall_cons in Hpre as [_ Hpre].
        assert (@Ok (list B) k' = Raise e) as [=]. { apply IH. by exists pre, z, post. }
      * split.
        -- intros [= ->]. destruct (proj1 IH eq_refl) as (pre & z & post & -> & Hpre & Hz).
           exists (x :: pre), z, post. repeat split; [|done].
           constructor; [by exists y|done].
        -- intros ([|x' pre] & z & post & [= <- Hl] & Hpre & Hz); [congruence|].
           apply Forall_cons in Hpre as [_ Hpre].
           apply IH. by exists pre, z, post.
    + split.
      * intros [= ->]. exists [], x, l. by repeat split.
      * intros ([|x' pre] & z & post & [= <- Hl] & Hpre & Hz); [congruence|].
        apply Forall_cons in Hpre as [[y Hy] _]. congruence.
Qed.

Lemma validate_rows_eq (df_clean : list (gmap string pyval)) :
  validate_rows df_clean =
  built ← mapM build_record df_clean; Ok (filter (λ r, has_coordinates r = true) built).
Proof. unfold validate_rows. by rewrite for_each_validate_row. Qed.

Lemma validate_rows_raises_when (df_clean : list (gmap string pyval)) (e : pyexn) :
  validate_rows df_clean = Raise e ↔
  ∃ before row after,
    df_clean = before ++ row :: after ∧
    Forall (λ row, ∃ record, build_record row = Ok record) before ∧
    build_record row = Raise e.
Proof.
  rewrite validate_rows_eq, <- mapM_Raise.
  destruct (mapM build_record df_clean); result_simpl; [|done].
  split; discriminate.
Qed.

(** X8: the validation loop raises exactly when some row cannot be built; the
    error is that of the first such row, and no record is returned, not even
    those of the rows before it. *)
Theorem validate_rows_raises_iff (df_clean : list (gmap string pyval)) (e : pyexn) :
  validate_rows df_clean = Raise e ↔
  ∃ before row after,
    df_clean = before ++ row :: after ∧
    Forall (λ row, ∃ record, build_record row = Ok record) before ∧
    build_record row = Raise e.
Proof. exact (validate_rows_raises_when df_clean e). Qed.

Lemma mapM_result_app {A B} (f : A → result B) (l1 l2 : list A) :
  mapM f (l1 ++ l2) = k1 ← mapM f l1; k2 ← mapM f l2; Ok (k1 ++ k2).
Proof.
  induction l1 as [|x l1 IH]; cbn [app mapM].
  - result_simpl. by destruct (mapM f l2).
  - rewrite IH. destruct (f x) as [y|e]; result_simpl; [|done].
    destruct (mapM f l1) as [k1|e]; result_simpl; [|done].
    by destruct (mapM f l2).
Qed.

(** X9: validating two frames one after the other gives the records of the
    first followed by those of the second; an error in the first, or else in
    the second, is the error of the whole. *)
Theorem validate_rows_app (df1 df2 : list (gmap string pyval)) :
  validate_rows (df1 ++ df2) =
  out1 ← validate_rows df1; out2 ← validate_rows df2; Ok (out1 ++ out2).
Proof.
  rewrite !validate_rows_eq, mapM_result_app.
  destruct (mapM build_record df1) as [k1|e]; result_simpl; [|done].
  destruct (mapM build_record df2) as [k2|e]; result_simpl; [|done].
  by rewrite filter_app.
Qed.

Lemma mapM_Ok_Forall {A B} (f : A → result B) (l : list A) (k : list B) :
  mapM f l = Ok k → Forall (λ y, ∃ x, x ∈ l ∧ f x = Ok y) k.
Proof.
  intros H%mapM_Ok_Forall2. induction H as [|x y l k Hxy _ IH]; constructor.
  - exists x. split; [left|done].
  - eapply Forall_impl; [exact IH|]. intros y' (x' & Hin & Hx'). exists x'.
    split; [by right|done].
Qed.

Lemma has_coordinates_float (row : gmap string pyval) (record : clean_record) :
  build_record row = Ok record → has_coordinates record = true →
  float_coordinates record.
Proof.
  intros [Hlat Hlon]%build_record_coordinates. unfold has_coordinates, float_coordinates.
  destruct (safe_convert_float_cases _ _ Hlat) as [->|[x ->]];
    destruct (safe_convert_float_cases _ _ Hlon) as [->|[y ->]]; simpl;
    try discriminate.
  intros _. by exists x, y.
Qed.

(** X10: every record the validation loop returns carries two floats as
    coordinates: never null, never an int and never text, whatever the cells
    of the frame held. *)
Theorem validate_rows_float_coordinates (df_clean : list (gmap string pyval))
    (records : list clean_record) :
  validate_rows df_clean = Ok records → Forall float_coordinates records.
Proof.
  rewrite validate_rows_eq.
  destruct (mapM build_record df_clean) as [built|e] eqn:Hbuilt; result_simpl;
    [|discriminate].
  intros [= <-]. apply mapM_Ok_Forall in Hbuilt.
  apply Forall_forall. intros record [Hcoord Hin]%list_elem_of_filter.
  rewrite Forall_forall in Hbuilt.
  destruct (Hbuilt record Hin) as (row & _ & Hrow).
  by apply (has_coordinates_float row).
Qed.

Lemma validate_rows_float_coordinates_witness :
  validate_rows [row_999; row_abc; row_999] =
    Ok [coordinates_only (PyFloat (Py.float_of_Z 999)) (PyFloat (Py.float_of_Z 10));
        coordinates_only (PyFloat (Py.float_of_Z 999)) (PyFloat (Py.float_of_Z 10))] ∧
  Forall float_coordinates
    [coordinates_only (PyFloat (Py.float_of_Z 999)) (PyFloat (Py.float_of_Z 10));
     coordinates_only (PyFloat (Py.float_of_Z 999)) (PyFloat (Py.float_of_Z 10))].
Proof.
  assert (H : validate_rows [row_999; row_abc; row_999] =
    Ok [coordinates_only (PyFloat (Py.float_of_Z 999)) (PyFloat (Py.float_of_Z 10));
        coordinates_only (PyFloat (Py.float_of_Z 999)) (PyFloat (Py.float_of_Z 10))])
    by (vm_compute; reflexivity).
  exact (conj H (validate_rows_float_coordinates _ _ H)).
Defined.

(** X11: a frame whose cells all hold text or nothing is validated without
    error: on such a frame the loop always returns its list of records. *)
Theorem validate_rows_text_total (df_clean : list (gmap string pyval)) :
  Forall text_row df_clean → ∃ records, validate_rows df_clean = Ok records.
Proof.
  intros Htext. destruct (validate_rows df_clean) as [records|e] eqn:E;
    [by exists records|].
  apply validate_rows_raises_when in E as (before & row & after & -> & _ & Hrow).
  apply Forall_app in Htext as [_ [Hrow' _]%Forall_cons].
  destruct (build_record_text row Hrow') as [record Hrecord]. congruence.
Qed.

Lemma validate_rows_text_total_witness :
  Forall text_row [row_text; row_abc] ∧
  ∃ records, validate_rows [row_text; row_abc] = Ok records.
Proof.
  assert (H : Forall text_row [row_text; row_abc]).
  { repeat apply Forall_cons_2; [| |apply Forall_nil_2];
      unfold text_row; refine (bool_decide_unpack _ _); vm_compute; reflexivity. }
  exact (conj H (validate_rows_text_total _ H)).
Defined.

Lemma safe_convert_None (convert_func : option (pyval → result pyval)) :
  safe_convert PyNone convert_func = Ok PyNone.
Proof. reflexivity. Qed.

Lemma build_record_fields (row : gmap string pyval) (record : clean_record) :
  build_record row = Ok record →
  safe_convert (row_get row "scientificName") None = Ok (scientific_name record) ∧
  safe_convert (row_get row "species") None = Ok (species record) ∧
  safe_convert (row_get row "genus") None = Ok (genus record) ∧
  safe_convert (row_get row "family") None = Ok (family record) ∧
  safe_convert (row_get row "order") None = Ok (order record) ∧
  safe_convert (row_get row "decimalLatitude") (Some Py.float) =
    Ok (decimal_latitude record) ∧
  safe_convert (row_get row "decimalLongitude") (Some Py.float) =
    Ok (decimal_longitude record) ∧
  safe_convert (row_get row "year") (Some Py.int) = Ok (year record) ∧
  safe_convert (row_get row "month") (Some Py.int) = Ok (month record) ∧
  safe_convert (row_get row "day") (Some Py.int) = Ok (day record) ∧
  safe_convert_date (row_get row "eventDate") = Ok (event_date record).
Proof.
  unfold build_record. result_simpl.
  repeat (match goal with
          | |- context [match ?c with Ok _ => _ | Raise _ => _ end] =>
              destruct c; [|discriminate]
          end).
  by intros [= <-].
Qed.

Lemma row_get_missing (row : gmap string pyval) (name : string) :
  row !! name = None → row_get row name = PyNone.
Proof. intros H. unfold row_get. by rewrite H. Qed.

(** X12: a column the frame does not have gives a null field: in the record of
    a row, each of the eleven fields whose column is missing is null. A row
    without one of the two coordinate columns is therefore never retained. *)
Theorem missing_column_null (row : gmap string pyval) (record : clean_record) :
  build_record row = Ok record →
  (row !! "scientificName" = None → scientific_name record = PyNone) ∧
  (row !! "species" = None → species record = PyNone) ∧
  (row !! "genus" = None → genus record = PyNone) ∧
  (row !! "family" = None → family record = PyNone) ∧
  (row !! "order" = None → order record = PyNone) ∧
  (row !! "decimalLatitude" = None → decimal_latitude record = PyNone) ∧
  (row !! "decimalLongitude" = None → decimal_longitude record = PyNone) ∧
  (row !! "year" = None → year record = PyNone) ∧
  (row !! "month" = None → month record = PyNone) ∧
  (row !! "day" = None → day record = PyNone) ∧
  (row !! "eventDate" = None → event_date record = PyNone) ∧
  (row !! "decimalLatitude" = None ∨ row !! "decimalLongitude" = None →
   has_coordinates record = false).
Proof.
  intros (H1 & H2 & H3 & H4 & H5 & H6 & H7 & H8 & H9 & H10 & H11)%build_record_fields.
  assert (Hlat : row !! "decimalLatitude" = None → decimal_latitude record = PyNone).
  { intros Hmiss. rewrite (row_get_missing _ _ Hmiss), safe_convert_None in H6.
    congruence. }
  assert (Hlon : row !! "decimalLongitude" = None → decimal_longitude record = PyNone).
  { intros Hmiss. rewrite (row_get_missing _ _ Hmiss), safe_convert_None in H7.
    congruence. }
  repeat apply conj; try assumption;
    try (intros Hmiss;
         match goal with
         | H : safe_convert (row_get row ?name) _ = Ok _ |- _ =>
             rewrite (row_get_missing _ _ Hmiss), safe_convert_None in H; congruence
         end).
  - intros Hmiss. rewrite (row_get_missing _ _ Hmiss) in H11.
    change (safe_convert_date PyNone) with (@Ok pyval PyNone) in H11. congruence.
  - unfold has_coordinates. intros [Hmiss|Hmiss].
    + by rewrite (Hlat Hmiss).
    + rewrite (Hlon Hmiss). apply andb_false_r.
Qed.

Lemma missing_column_null_witness :
  build_record row_999 =
    Ok (coordinates_only (PyFloat (Py.float_of_Z 999)) (PyFloat (Py.float_of_Z 10))) ∧
  row_999 !! "species" = None ∧
  species (coordinates_only (PyFloat (Py.float_of_Z 999)) (PyFloat (Py.float_of_Z 10)))
  = PyNone.
Proof.
  assert (H : build_record row_999 =
    Ok (coordinates_only (PyFloat (Py.float_of_Z 999)) (PyFloat (Py.float_of_Z 10))))
    by (vm_compute; reflexivity).
  assert (Hmiss : row_999 !! "species" = None) by (vm_compute; reflexivity).
  exact (conj H (conj Hmiss (proj1 (proj2 (missing_column_null _ _ H)) Hmiss))).
Defined.

(** X13: the blank guard knows the text 'nan' but not the other spellings
    [float] reads as NaN ('-nan', '+nan', ' nan'): a coordinate given by such
    a text becomes the float NaN, which is not null, so with a valid other
    coordinate the row is retained with a NaN coordinate. *)
Theorem nan_text_coordinate_retained (row : gmap string pyval) (s : string)
    (record : clean_record) (records : list clean_record) :
  row_get row "decimalLatitude" = PyStr s →
  Str.mem (Str.lower s) ["nan"; "none"; ""] = false →
  Py.float_of_str s = Ok S754_nan →
  normalizes_to_float (row_get row "decimalLongitude") →
  build_record row = Ok record →
  decimal_latitude record = PyFloat S754_nan ∧
  validate_row records row = Ok (records ++ [record]).
Proof.
  intros Hlat Hblank Hnan Hlon Hrecord.
  assert (Hfloat : safe_convert (PyStr s) (Some Py.float) = Ok (PyFloat S754_nan)).
  { unfold safe_convert. cbn [Py.isna is_None Py.str]. result_simpl.
    rewrite Hblank. cbn [Py.float]. rewrite Hnan. reflexivity. }
  destruct (build_record_coordinates _ _ Hrecord) as [Hlat' _].
  rewrite Hlat, Hfloat in Hlat'. injection Hlat' as Hlat'.
  split; [done|].
  rewrite (validate_row_eq records row record Hrecord).
  assert (has_coordinates record = true) as ->; [|done].
  apply (has_coordinates_iff row record Hrecord). split; [|done].
  exists S754_nan. by rewrite Hlat.
Qed.

Lemma nan_text_coordinate_retained_witness :
  decimal_latitude (coordinates_only (PyFloat S754_nan) (PyFloat (Py.float_of_Z 10))) =
    PyFloat S754_nan ∧
  validate_row [] row_nan =
    Ok ([] ++ [coordinates_only (PyFloat S754_nan) (PyFloat (Py.float_of_Z 10))]).
Proof.
  apply (nan_text_coordinate_retained row_nan "-nan").
  - vm_compute; reflexivity.
  - vm_compute; reflexivity.
  - vm_compute; reflexivity.
  - exists (Py.float_of_Z 10). vm_compute; reflexivity.
  - vm_compute; reflexivity.
Defined.

(** ** More on the batch loop *)

Lemma py_range_batches (n : nat) :
  py_range 0 n batch_size = (λ k, k * batch_size) <$> seq 0 ((n + 99) / 100).
Proof.
  unfold py_range, batch_size. rewrite Nat.sub_0_r.
  replace (n + 100 - 1) with (n + 99) by lia. reflexivity.
Qed.

Lemma batches_eq (records : list clean_record) :
  batches records =
  (λ k, take 100 (drop (k * 100) records)) <$> seq 0 ((length records + 99) / 100).
Proof.
  unfold batches. rewrite py_range_batches, <- list_fmap_compose.
  apply list_fmap_ext. intros _ k _. unfold slice, batch_size. cbn [compose].
  f_equal. lia.
Qed.

Lemma concat_chunks {A} (l : list A) (a m : nat) :
  concat ((λ k, take 100 (drop (k * 100) l)) <$> seq a m) =
  take (m * 100) (drop (a * 100) l).
Proof.
  revert a. induction m as [|m IH]; intros a; [reflexivity|].
  cbn [seq fmap list_fmap concat]. rewrite IH.
  replace (S a * 100) with (a * 100 + 100) by lia.
  rewrite <- drop_drop.
  replace (S m * 100) with (100 + m * 100) by lia.
  by rewrite take_take_drop.
Qed.

Lemma batch_count_covers (n : nat) : n ≤ (n + 99) / 100 * 100.
Proof.
  pose proof (Nat.div_mod (n + 99) 100 ltac:(lia)) as Hdiv.
  pose proof (Nat.mod_upper_bound (n + 99) 100 ltac:(lia)). lia.
Qed.

Lemma batch_index_inside (n k : nat) : k < (n + 99) / 100 → k * 100 < n.
Proof.
  intros Hk. destruct (decide (k * 100 < n)) as [|Hge]; [done|]. exfalso.
  assert ((n + 99) / 100 < k + 1); [|lia].
  apply Nat.Div0.div_lt_upper_bound; lia.
Qed.

Lemma concat_batches (records : list clean_record) :
  concat (batches records) = records.
Proof.
  rewrite batches_eq, concat_chunks. cbn [Nat.mul drop].
  apply take_ge, batch_count_covers.
Qed.

Lemma lookup_batches (records : list clean_record) (j : nat) (batch : list clean_record) :
  batches records !! j = Some batch →
  j * 100 < length records ∧ batch = take 100 (drop (j * 100) records).
Proof.
  rewrite batches_eq, list_lookup_fmap.
  destruct (seq 0 _ !! j) as [k|] eqn:E; [|discriminate].
  apply lookup_seq in E as [-> Hj]. cbn [fmap option_fmap option_map Nat.add].
  intros [= <-]. split; [by apply batch_index_inside|done].
Qed.

(** X14: the batches the loop plans are a partition of the records: put end
    to end they give the records back in order, there are
    ceil(len(records) / 100) of them, none is empty, and the batch at position
    j holds the min(100, len(records) - 100 j) records from index 100 j on. *)
Theorem batches_partition (records : list clean_record) :
  concat (batches records) = records ∧
  length (batches records) = (length records + 99) / 100 ∧
  ∀ (j : nat) (batch : list clean_record),
    batches records !! j = Some batch →
    batch = take 100 (drop (j * 100) records) ∧
    0 < length batch ∧
    length batch = min 100 (length records - j * 100).
Proof.
  repeat apply conj.
  - apply concat_batches.
  - by rewrite batches_eq, length_fmap, length_seq.
  - intros j batch [Hj ->]%lookup_batches.
    rewrite length_take, length_drop. repeat apply conj; [done|lia|done].
Qed.

Section LoaderMore.

Context {store : Type}.
Variable insert_execute : list clean_record → store → store * option pyexn.

Lemma inserts_of_app (t1 t2 : list event) :
  inserts_of (t1 ++ t2) = inserts_of t1 ++ inserts_of t2.
Proof. apply omap_app. Qed.

(** The loop over any list of indices, on any store: the requests are those
    of the first turns, all of them when the loop completes. *)
Lemma run_insert_loop (records : list clean_record) (idx : list nat)
    (total_inserted : nat) (w : world store) :
  let out := run (for_each idx total_inserted (insert_batch insert_execute records)) w in
  ∃ k : nat,
    k ≤ length idx ∧
    inserts_of (trace out.2) =
      inserts_of (trace w) ++
      take k ((λ i, slice records i (i + batch_size)) <$> idx) ∧
    match out.1 with
    | Ok n =>
        k = length idx ∧
        n = total_inserted +
            length (concat ((λ i, slice records i (i + batch_size)) <$> idx))
    | Raise _ => 0 < k
    end.
Proof.
  cbv zeta. revert total_inserted w.
  induction idx as [|i idx IH]; intros total_inserted w.
  - exists 0. cbn. rewrite app_nil_r. repeat apply conj; [done|done|done|lia].
  - rewrite run_for_each_cons.
    destruct (insert_execute (slice records i (i + batch_size)) (db w))
      as [d [e|]] eqn:Hins.
    + rewrite run_insert_batch_fails with (d := d) (e := e) by exact Hins.
      exists 1. cbn [fst snd trace length fmap list_fmap take].
      rewrite inserts_of_app. repeat apply conj; [lia|done|lia].
    + rewrite run_insert_batch_ok with (d := d) by exact Hins.
      match goal with
      | |- context [run (for_each idx ?t _) ?w'] =>
          destruct (IH t w') as (k & Hk & Htrace & Hres)
      end.
      exists (S k). cbn [length fmap list_fmap take concat].
      rewrite Htrace. cbn [trace]. rewrite inserts_of_app, <- app_assoc.
      repeat apply conj; [lia|done|].
      destruct (run (for_each idx _ _) _).1 as [n|e].
      * destruct Hres as [-> ->]. rewrite length_app. split; [done|lia].
      * lia.
Qed.

Lemma run_insert_batches (records : list clean_record) (w : world store) :
  run (insert_batches insert_execute records) w =
  match run (for_each (py_range 0 (length records) batch_size) 0
               (insert_batch insert_execute records)) w with
  | (Ok n, w') =>
      (Ok n, {| db := db w'; trace := trace w' ++ [Print (Saved n)] |})
  | (Raise e, w') => (Raise e, w')
  end.
Proof.
  unfold insert_batches. rewrite run_bind.
  by destruct (run (for_each _ _ _) w) as [[n|e] w'].
Qed.

Lemma insert_batches_prefix (records : list clean_record) (w : world store) :
  let out := run (insert_batches insert_execute records) w in
  ∃ k : nat,
    k ≤ length (batches records) ∧
    inserts_of (trace out.2) = inserts_of (trace w) ++ take k (batches records) ∧
    match out.1 with
    | Ok n => k = length (batches records) ∧ n = length records
    | Raise _ => 0 < k
    end.
Proof.
  cbv zeta. rewrite run_insert_batches.
  destruct (run_insert_loop records (py_range 0 (length records) batch_size) 0 w)
    as (k & Hk & Htrace & Hres).
  fold (batches records) in Htrace, Hres.
  unfold batches at 1. rewrite length_fmap.
  exists k.
  destruct (run (for_each _ _ _) w) as [[n|e] w']; cbn [fst snd] in *.
  - cbn [trace]. rewrite inserts_of_app, app_nil_r.
    destruct Hres as [-> ->]. rewrite concat_batches.
    repeat apply conj; try done. unfold batches. by rewrite length_fmap.
  - done.
Qed.

(** X15: on any store, the insert requests of the batch loop are the first k
    batches of the plan, in order and each once: all of them, with the number
    of records as the final total, when the loop completes, and at least one
    (the last of them being the request that failed) when it raises. No
    record is sent twice and none is sent out of order. *)
Theorem insert_requests_prefix (records : list clean_record) (w : world store) :
  let out := run (insert_batches insert_execute records) w in
  ∃ k : nat,
    k ≤ length (batches records) ∧
    inserts_of (trace out.2) = inserts_of (trace w) ++ take k (batches records) ∧
    match out.1 with
    | Ok n => k = length (batches records) ∧ n = length records
    | Raise _ => 0 < k
    end.
Proof. exact (insert_batches_prefix records w). Qed.

Lemma imap_fmap_seq {A B} (f : nat → A → B) (g : nat → A) (a m : nat) :
  imap f (g <$> seq a m) = (λ k, f (k - a) (g k)) <$> seq a m.
Proof.
  revert f a. induction m as [|m IH]; intros f a; [reflexivity|].
  cbn [seq fmap list_fmap]. rewrite imap_cons, IH, Nat.sub_diag. f_equal.
  apply list_fmap_ext. intros j k [-> _]%lookup_seq. cbn [compose].
  by replace (S a + j - a) with (S (S a + j - S a)) by lia.
Qed.

(** The loop on a store that accepts every request. *)
Lemma run_insert_loop_accepted (records : list clean_record) (m a : nat)
    (w : world store) :
  (∀ batch d, (insert_execute batch d).2 = None) →
  (a + m) = (length records + 99) / 100 →
  run (for_each ((λ k, k * batch_size) <$> seq a m)
         (min (a * 100) (length records)) (insert_batch insert_execute records)) w =
  (Ok (min (length records) ((a + m) * 100)),
   {| db := foldl (λ d batch, (insert_execute batch d).1) (db w)
              ((λ k, take 100 (drop (k * 100) records)) <$> seq a m);
      trace := trace w ++
        concat ((λ k, batch_events records k (take 100 (drop (k * 100) records)))
                  <$> seq a m) |}).
Proof.
  intros Haccept. revert a w. induction m as [|m IH]; intros a w Ham.
  - cbn. rewrite app_nil_r, Nat.add_0_r. destruct w as [d t].
    do 2 f_equal. lia.
  - cbn [seq fmap list_fmap]. rewrite run_for_each_cons.
    assert (Hslice : slice records (a * batch_size) (a * batch_size + batch_size) =
                     take 100 (drop (a * 100) records)).
    { unfold slice, batch_size. f_equal. lia. }
    assert (Ha : a * 100 < length records).
    { apply batch_index_inside. lia. }
    rewrite run_insert_batch_ok
      with (d := (insert_execute (take 100 (drop (a * 100) records)) (db w)).1).
    2:{ rewrite Hslice. specialize (Haccept (take 100 (drop (a * 100) records)) (db w)).
        destruct (insert_execute _ _) as [d o]. cbn in *. by subst. }
    rewrite Hslice.
    assert (Htotal : min (a * 100) (length records) +
                     length (take 100 (drop (a * 100) records)) =
                     min (S a * 100) (length records)).
    { rewrite length_take, length_drop. lia. }
    rewrite Htotal.
    rewrite (IH (S a)) by lia. cbn [db trace foldl concat].
    rewrite <- app_assoc. unfold batch_events at 2. cbn [app].
    unfold batch_size at 1. rewrite Nat.div_mul by done.
    do 3 f_equal; [lia|].
    do 4 f_equal. unfold batch_size. lia.
Qed.

Lemma run_insert_batches_accepted (records : list clean_record) (w : world store) :
  (∀ batch d, (insert_execute batch d).2 = None) →
  run (insert_batches insert_execute records) w =
  (Ok (length records),
   {| db := foldl (λ d batch, (insert_execute batch d).1) (db w) (batches records);
      trace := trace w ++
        concat (imap (batch_events records) (batches records)) ++
        [Print (Saved (length records))] |}).
Proof.
  intros Haccept. rewrite run_insert_batches, py_range_batches.
  rewrite (run_insert_loop_accepted records _ 0 w Haccept) by done.
  cbn [db trace Nat.add].
  pose proof (batch_count_covers (length records)).
  rewrite Nat.min_l by done.
  rewrite batches_eq, imap_fmap_seq, <- app_assoc.
  do 5 f_equal. apply list_fmap_ext. intros j k _. by rewrite Nat.sub_0_r.
Qed.

(** X16: on a store that accepts every request the batch loop sends every
    batch of the plan, in order, each followed by its progress line, which
    numbers the batches from 1 and reports min(100 (j + 1), len(records)) as
    the running total; it ends with the line of the final total, the number
    of records, and returns it. *)
Theorem insert_batches_accepted (records : list clean_record) (w : world store) :
  (∀ batch d, (insert_execute batch d).2 = None) →
  run (insert_batches insert_execute records) w =
  (Ok (length records),
   {| db := foldl (λ d batch, (insert_execute batch d).1) (db w) (batches records);
      trace := trace w ++
        concat (imap (batch_events records) (batches records)) ++
        [Print (Saved (length records))] |}).
Proof. exact (run_insert_batches_accepted records w). Qed.

Lemma run_save_to_supabase_invalid (df_clean : list (gmap string pyval))
    (e : pyexn) (w : world store) :
  validate_rows df_clean = Raise e →
  run (save_to_supabase insert_execute df_clean) w =
  (Ok tt,
   {| db := db w;
      trace := trace w ++ [Print Saving; Log (ErrorSaving e); Log BackupNote] |}).
Proof.
  intros Hvalid. unfold save_to_supabase, try_script, lift.
  cbn [run mbind script_bind emit mret script_ret db trace]. rewrite Hvalid.
  cbn [run mbind script_bind emit mret script_ret db trace].
  by rewrite <- !app_assoc.
Qed.

(** X17: the try block never raises, whatever the frame holds and whatever
    the store does: every error of the validation and of the inserts ends in
    the handler. Its insert requests are the first batches of the validated
    records, and there is none when the validation fails. *)
Theorem save_to_supabase_never_raises (df_clean : list (gmap string pyval))
    (w : world store) :
  let out := run (save_to_supabase insert_execute df_clean) w in
  out.1 = Ok tt ∧
  ∃ k : nat,
    inserts_of (trace out.2) =
    inserts_of (trace w) ++
    take k (match validate_rows df_clean with
            | Ok records => batches records
            | Raise _ => []
            end).
Proof.
  cbv zeta. destruct (validate_rows df_clean) as [records|e] eqn:Hvalid.
  - rewrite (run_save_to_supabase insert_execute df_clean records w Hvalid).
    match goal with
    | |- context [run (insert_batches insert_execute records) ?w'] =>
        destruct (insert_batches_prefix records w') as (k & _ & Htrace & _);
        destruct (run (insert_batches insert_execute records) w') as [[n|e] w'']
    end; cbn [fst snd trace] in *.
    + split; [done|]. exists k. rewrite Htrace, inserts_of_app.
      cbn. by rewrite app_nil_r.
    + split; [done|]. exists k. rewrite inserts_of_app, Htrace, inserts_of_app.
      cbn. by rewrite !app_nil_r.
  - rewrite (run_save_to_supabase_invalid df_clean e w Hvalid). cbn [fst snd trace].
    split; [done|]. exists 0. rewrite inserts_of_app. reflexivity.
Qed.

(** X18: when the validation of the frame raises, nothing is saved: the block
    writes its opening line and the two lines of the handler, issues no insert
    request and leaves the store as it was, also for the rows that were
    valid. *)
Theorem invalid_frame_saves_nothing (df_clean : list (gmap string pyval))
    (e : pyexn) (w : world store) :
  validate_rows df_clean = Raise e →
  run (save_to_supabase insert_execute df_clean) w =
  (Ok tt,
   {| db := db w;
      trace := trace w ++ [Print Saving; Log (ErrorSaving e); Log BackupNote] |}).
Proof. exact (run_save_to_supabase_invalid df_clean e w). Qed.

(** X19: the whole block on a frame that validates and a store that accepts
    every request: the opening line, the number of valid records, every batch
    with its progress line, the line of the final total; nothing is logged as
    an error and the store has received the batches in order. *)
Theorem save_to_supabase_accepted (df_clean : list (gmap string pyval))
    (records : list clean_record) (w : world store) :
  validate_rows df_clean = Ok records →
  (∀ batch d, (insert_execute batch d).2 = None) →
  run (save_to_supabase insert_execute df_clean) w =
  (Ok tt,
   {| db := foldl (λ d batch, (insert_execute batch d).1) (db w) (batches records);
      trace := trace w ++
        [Print Saving; Print (Prepared (length records))] ++
        concat (imap (batch_events records) (batches records)) ++
        [Print (Saved (length records))] |}).
Proof.
  intros Hvalid Haccept.
  rewrite (run_save_to_supabase insert_execute df_clean records w Hvalid).
  rewrite (run_insert_batches_accepted records _ Haccept). cbn [db trace].
  by rewrite <- app_assoc.
Qed.

End LoaderMore.

Lemma insert_batches_accepted_witness :
  (∀ batch d, (accepts_all batch d).2 = None) ∧
  run (insert_batches accepts_all records_250) fresh =
  (Ok (length records_250),
   {| db := foldl (λ d batch, (accepts_all batch d).1) (db fresh) (batches records_250);
      trace := trace fresh ++
        concat (imap (batch_events records_250) (batches records_250)) ++
        [Print (Saved (length records_250))] |}).
Proof.
  assert (H : ∀ (batch : list clean_record) (d : nat), (accepts_all batch d).2 = None)
    by (intros batch d; reflexivity).
  exact (conj H (insert_batches_accepted accepts_all records_250 fresh H)).
Defined.

Lemma invalid_frame_saves_nothing_witness :
  validate_rows [row_text; row_inf_year; row_text] = Raise OverflowError ∧
  run (save_to_supabase accepts_all [row_text; row_inf_year; row_text]) fresh =
  (Ok tt,
   {| db := db fresh;
      trace := trace fresh ++
        [Print Saving; Log (ErrorSaving OverflowError); Log BackupNote] |}).
Proof.
  assert (H : validate_rows [row_text; row_inf_year; row_text] = Raise OverflowError)
    by (vm_compute; reflexivity).
  exact (conj H (invalid_frame_saves_nothing accepts_all _ _ fresh H)).
Defined.

Lemma save_to_supabase_accepted_witness :
  validate_rows [row_999; row_abc] =
    Ok [coordinates_only (PyFloat (Py.float_of_Z 999)) (PyFloat (Py.float_of_Z 10))] ∧
  (∀ batch d, (accepts_all batch d).2 = None) ∧
  run (save_to_supabase accepts_all [row_999; row_abc]) fresh =
  (Ok tt,
   {| db := 1;
      trace :=
        [Print Saving; Print (Prepared 1);
         Insert [coordinates_only (PyFloat (Py.float_of_Z 999))
                   (PyFloat (Py.float_of_Z 10))];
         Print (InsertedBatch 1 1 1);
         Print (Saved 1)] |}).
Proof.
  assert (H : validate_rows [row_999; row_abc] =
    Ok [coordinates_only (PyFloat (Py.float_of_Z 999)) (PyFloat (Py.float_of_Z 10))])
    by (vm_compute; reflexivity).
  assert (Ha : ∀ (batch : list clean_record) (d : nat), (accepts_all batch d).2 = None)
    by (intros batch d; reflexivity).
  exact (conj H (conj Ha (save_to_supabase_accepted accepts_all _ _ fresh H Ha))).
Defined.

(** ** Frames of numeric coordinates *)

Lemma float_row_record (row : gmap string pyval) (record : clean_record) :
  float_row row → build_record row = Ok record →
  has_coordinates record = true ∧ same_coordinates row record.
Proof.
  intros (x & y & Hlat & Hx & Hlon & Hy) [Hlat' Hlon']%build_record_coordinates.
  rewrite Hlat in Hlat'. rewrite Hlon in Hlon'.
  destruct (safe_convert_float_eq x) as (_ & Hfx & _).
  destruct (safe_convert_float_eq y) as (_ & Hfy & _).
  rewrite Hfx in Hlat'. rewrite Hfy in Hlon'.
  unfold has_coordinates, same_coordinates. rewrite Hlat, Hlon.
  destruct x; try done; destruct y; try done;
    injection Hlat' as <-; injection Hlon' as <-; done.
Qed.

(** X20: on a frame whose coordinate cells are floats other than NaN, the
    validation loop drops no row: when it returns, there is one record per
    row, in order, and each carries the coordinates of its row unchanged,
    infinite and out-of-range ones included. *)
Theorem float_rows_all_retained (df_clean : list (gmap string pyval))
    (records : list clean_record) :
  Forall float_row df_clean →
  validate_rows df_clean = Ok records →
  Forall2 same_coordinates df_clean records.
Proof.
  rewrite validate_rows_eq. intros Hrows.
  destruct (mapM build_record df_clean) as [built|e] eqn:Hbuilt; result_simpl;
    [|discriminate].
  intros [= <-]. apply mapM_Ok_Forall2 in Hbuilt.
  induction Hbuilt as [|row record df built Hrecord _ IH]; [constructor|].
  apply Forall_cons in Hrows as [Hrow Hrows].
  destruct (float_row_record row record Hrow Hrecord) as [Hkept Hsame].
  rewrite filter_cons_True by done. constructor; [done|by apply IH].
Qed.

Lemma float_rows_all_retained_witness :
  Forall float_row [row_999; row_999] ∧
  validate_rows [row_999; row_999] =
    Ok [coordinates_only (PyFloat (Py.float_of_Z 999)) (PyFloat (Py.float_of_Z 10));
        coordinates_only (PyFloat (Py.float_of_Z 999)) (PyFloat (Py.float_of_Z 10))] ∧
  Forall2 same_coordinates [row_999; row_999]
    [coordinates_only (PyFloat (Py.float_of_Z 999)) (PyFloat (Py.float_of_Z 10));
     coordinates_only (PyFloat (Py.float_of_Z 999)) (PyFloat (Py.float_of_Z 10))].
Proof.
  assert (Hrow : float_row row_999).
  { exists (Py.float_of_Z 999), (Py.float_of_Z 10).
    repeat apply conj; [vm_compute; reflexivity|vm_compute; discriminate
                       |vm_compute; reflexivity|vm_compute; discriminate]. }
  assert (Hrows : Forall float_row [row_999; row_999]).
  { repeat apply Forall_cons_2; [exact Hrow|exact Hrow|apply Forall_nil_2]. }
  assert (H : validate_rows [row_999; row_999] =
    Ok [coordinates_only (PyFloat (Py.float_of_Z 999)) (PyFloat (Py.float_of_Z 10));
        coordinates_only (PyFloat (Py.float_of_Z 999)) (PyFloat (Py.float_of_Z 10))])
    by (vm_compute; reflexivity).
  exact (conj Hrows (conj H (float_rows_all_retained _ _ Hrows H))).
Defined.

(** ** Whole-number floats *)

Lemma int_of_float_of_Z_upto (bound : Z) :
  forallb (λ k, match Py.int_of_float (Py.float_of_Z (Z.of_nat k)) with
                | Ok n => (n =? Z.of_nat k)%Z
                | Raise _ => false
                end) (seq 0 (Z.to_nat bound)) = true →
  ∀ n : Z, (0 ≤ n < bound)%Z →
    Py.int_of_float (Py.float_of_Z n) = Ok n.
Proof.
  intros Hall n Hn. rewrite forallb_forall in Hall.
  specialize (Hall (Z.to_nat n)). rewrite Z2Nat.id in Hall by lia.
  destruct (Py.int_of_float (Py.float_of_Z n)) as [k|e].
  - f_equal. apply Z.eqb_eq, Hall, in_seq. lia.
  - discriminate Hall. apply in_seq. lia.
Qed.

Lemma int_of_float_of_Z_10000 (n : Z) :
  (0 ≤ n < 10000)%Z → Py.int_of_float (Py.float_of_Z n) = Ok n.
Proof.
  apply (int_of_float_of_Z_upto 10000%Z). vm_compute. reflexivity.
Qed.

(** X21: a year, month or day held as a whole-number float, as pandas holds
    a numeric column with gaps, becomes the int of the same value: for
    0 <= n < 10000 the field normalizer under [int] maps float(n) to n. *)
Theorem whole_float_to_int (n : Z) :
  (0 ≤ n < 10000)%Z →
  safe_convert (PyFloat (Py.float_of_Z n)) (Some Py.int) = Ok (PyInt n).
Proof.
  intros Hn. destruct (safe_convert_float_eq (Py.float_of_Z n)) as (_ & _ & ->).
  pose proof (int_of_float_of_Z_10000 n Hn) as Hint.
  destruct (Py.float_of_Z n); simpl in Hint; try discriminate; congruence.
Qed.

Lemma whole_float_to_int_witness :
  (0 ≤ 2024 < 10000)%Z ∧
  safe_convert (PyFloat (Py.float_of_Z 2024)) (Some Py.int) = Ok (PyInt 2024).
Proof.
  assert (H : (0 ≤ 2024 < 10000)%Z) by lia.
  exact (conj H (whole_float_to_int 2024 H)).
Defined.

(** ** The coordinate filter of [process_haedat.py] *)

Lemma SFleb_nan_r (f : spec_float) : SFleb f S754_nan = false.
Proof. by destruct f. Qed.

Lemma SFleb_nan_l (f : spec_float) : SFleb S754_nan f = false.
Proof. by destruct f. Qed.

Lemma coord_mask_ranges (latitude longitude : pyval) :
  Haedat.coord_mask latitude longitude =
  lat_ge ← Haedat.ge_int latitude (-90);
  lat_le ← Haedat.le_int latitude 90;
  lon_ge ← Haedat.ge_int longitude (-180);
  lon_le ← Haedat.le_int longitude 180;
  Ok (lat_ge && lat_le && lon_ge && lon_le).
Proof.
  unfold Haedat.coord_mask.
  destruct latitude as [|x|n|s]; cbn [Haedat.ge_int Haedat.le_int]; result_simpl;
    [| | |reflexivity].
  - by destruct longitude.
  - destruct longitude as [|y|m|t]; result_simpl; try reflexivity.
    + cbn. by rewrite !andb_false_r.
    + destruct x; try (cbn; by rewrite ?SFleb_nan_r, ?SFleb_nan_l);
        destruct y; cbn; rewrite ?andb_true_r, ?andb_false_r, ?SFleb_nan_r, ?SFleb_nan_l;
        try reflexivity.
    + destruct x; cbn; rewrite ?andb_true_r, ?SFleb_nan_r; reflexivity.
  - destruct longitude as [|y|m|t]; result_simpl; try reflexivity.
    + cbn. by rewrite !andb_false_r.
    + destruct y; cbn; rewrite ?andb_true_r, ?andb_false_r, ?SFleb_nan_r, ?SFleb_nan_l;
        reflexivity.
    + cbn. by rewrite ?andb_true_r.
Qed.

(** X22: in the coordinate filter the tests [notna], [!= ''] and [!= ' ']
    never change the outcome: the mask of a row is the conjunction of the
    four range comparisons, and raises when one of them raises. *)
Theorem coord_mask_range_only (latitude longitude : pyval) :
  Haedat.coord_mask latitude longitude =
  lat_ge ← Haedat.ge_int latitude (-90);
  lat_le ← Haedat.le_int latitude 90;
  lon_ge ← Haedat.ge_int longitude (-180);
  lon_le ← Haedat.le_int longitude 180;
  Ok (lat_ge && lat_le && lon_ge && lon_le).
Proof. exact (coord_mask_ranges latitude longitude). Qed.

(** X23: the coordinate filter raises exactly when a coordinate cell holds
    text, the blank texts '' and ' ' it tests for included, and then with
    [TypeError]; when no cell holds text, a missing or NaN coordinate gives
    false. *)
Theorem coord_mask_raises_iff (latitude longitude : pyval) (e : pyexn) :
  (Haedat.coord_mask latitude longitude = Raise e ↔
   ((∃ s, latitude = PyStr s) ∨ (∃ s, longitude = PyStr s)) ∧ e = TypeError) ∧
  (Py.isna latitude = true ∨ Py.isna longitude = true →
   (∀ s, latitude ≠ PyStr s) → (∀ s, longitude ≠ PyStr s) →
   Haedat.coord_mask latitude longitude = Ok false).
Proof.
  split.
  - rewrite coord_mask_ranges.
    destruct latitude as [|x|n|s], longitude as [|y|m|t];
      cbn [Haedat.ge_int Haedat.le_int]; result_simpl.
    all: split.
    all: try discriminate.
    all: try (intros [[[? [=]]|[? [=]]] ->]; reflexivity).
    all: intros [= <-]; split; [|done]; eauto.
  - intros Hna Hlat Hlon. rewrite coord_mask_ranges.
    destruct latitude as [|x|n|s]; try (by destruct (Hlat s));
      destruct longitude as [|y|m|t]; try (by destruct (Hlon t));
      cbn [Haedat.ge_int Haedat.le_int]; result_simpl;
      try (by rewrite ?andb_false_r);
      destruct Hna as [Hna|Hna]; try discriminate;
      try (destruct x; try discriminate Hna);
      try (destruct y; try discriminate Hna);
      by rewrite ?SFleb_nan_r, ?SFleb_nan_l, ?andb_false_r.
Qed.

(** ** The text of an int *)

Lemma rev_app_rev_app (s a b : string) :
  String.rev_app (String.rev_app s a) b = String.rev_app a (s +:+ b).
Proof.
  revert a b. induction s as [|c s IH]; intros a b; [reflexivity|].
  cbn [String.rev_app]. by rewrite IH.
Qed.

Lemma append_nil_r (s : string) : s +:+ EmptyString = s.
Proof. induction s as [|c s IH]; [reflexivity|]. by rewrite append_cons, IH. Qed.

Lemma rev_rev (s : string) : String.rev (String.rev s) = s.
Proof. unfold String.rev. rewrite rev_app_rev_app. cbn. apply append_nil_r. Qed.

Lemma is_digit_plain (c : ascii) :
  Str.is_digit c = true →
  Str.is_space c = false ∧ Py.space_to_ascii c = c ∧ Ascii.eqb c "_" = false ∧
  Ascii.eqb c "-" = false ∧ Ascii.eqb c "+" = false.
Proof.
  destruct c as [[] [] [] [] [] [] [] []]; try discriminate; intros _;
    by repeat apply conj.
Qed.

Lemma lstrip_no_space (s : string) :
  Str.all (λ c, negb (Str.is_space c)) s = true → Str.lstrip s = s.
Proof.
  destruct s as [|c s]; [reflexivity|]. cbn [Str.all Str.lstrip].
  intros [Hc _]%andb_true_iff. by destruct (Str.is_space c).
Qed.

Lemma rstrip_no_space (s : string) :
  Str.all (λ c, negb (Str.is_space c)) s = true → Str.rstrip s = s.
Proof.
  intros Hs. unfold Str.rstrip. rewrite lstrip_no_space by (by rewrite all_rev).
  apply rev_rev.
Qed.

Lemma all_impl (p q : ascii → bool) (s : string) :
  (∀ c, p c = true → q c = true) → Str.all p s = true → Str.all q s = true.
Proof.
  intros Hpq. induction s as [|c s IH]; [done|]. cbn [Str.all].
  intros [Hc Hs]%andb_true_iff. by rewrite (Hpq c Hc), IH.
Qed.

Lemma map_space_to_ascii_digits (s : string) :
  Str.all Str.is_digit s = true → Str.map Py.space_to_ascii s = s.
Proof.
  induction s as [|c s IH]; [done|]. cbn [Str.all Str.map].
  intros [Hc Hs]%andb_true_iff.
  destruct (is_digit_plain c Hc) as (_ & -> & _). by rewrite IH.
Qed.

Lemma strip_number_digits (s : string) :
  Str.all Str.is_digit s = true → Py.strip_number s = s.
Proof.
  intros Hs. unfold Py.strip_number. rewrite map_space_to_ascii_digits by done.
  assert (Hns : Str.all (λ c, negb (Str.is_space c)) s = true).
  { apply (all_impl Str.is_digit); [|done].
    intros c Hc. by destruct (is_digit_plain c Hc) as (-> & _). }
  by rewrite lstrip_no_space, rstrip_no_space.
Qed.

Lemma strip_number_minus (s : string) :
  Str.all Str.is_digit s = true → Py.strip_number (String "-" s) = String "-" s.
Proof.
  intros Hs. unfold Py.strip_number. cbn [Str.map].
  change (Py.space_to_ascii "-") with "-"%char.
  rewrite map_space_to_ascii_digits by done.
  assert (Hns : Str.all (λ c, negb (Str.is_space c)) (String "-" s) = true).
  { cbn [Str.all]. change (negb (Str.is_space "-")) with true. rewrite andb_true_l.
    apply (all_impl Str.is_digit); [|done].
    intros c Hc. by destruct (is_digit_plain c Hc) as (-> & _). }
  by rewrite lstrip_no_space, rstrip_no_space.
Qed.

Lemma drop_underscores_digits (prev : ascii) (s : string) :
  Ascii.eqb prev "_" = false → Str.all Str.is_digit s = true →
  Py.drop_underscores prev s = Some s.
Proof.
  revert prev. induction s as [|c s IH]; intros prev Hprev.
  - intros _. cbn. by rewrite Hprev.
  - cbn [Str.all Py.drop_underscores]. intros [Hc Hs]%andb_true_iff.
    destruct (is_digit_plain c Hc) as (_ & _ & Hu & _).
    rewrite Hu, Hprev. cbn [andb]. by rewrite (IH c Hu Hs).
Qed.

Lemma take_sign_digits (s : string) :
  Str.all Str.is_digit s = true → Py.take_sign s = (false, s).
Proof.
  destruct s as [|c s]; [done|]. cbn [Str.all]. intros [Hc _]%andb_true_iff.
  destruct c as [[] [] [] [] [] [] [] []]; try discriminate; reflexivity.
Qed.

Lemma digits_val_from_app (acc : Z) (s t : string) :
  Str.digits_val_from acc (s +:+ t) = Str.digits_val_from (Str.digits_val_from acc s) t.
Proof.
  revert acc. induction s as [|c s IH]; intros acc; [reflexivity|].
  rewrite append_cons. cbn [Str.digits_val_from]. apply IH.
Qed.

Lemma decimal_go_app (fuel : nat) (n : Z) (acc : string) :
  Str.decimal_go fuel n acc = Str.decimal_go fuel n EmptyString +:+ acc.
Proof.
  revert n acc. induction fuel as [|fuel IH]; intros n acc; [reflexivity|].
  cbn [Str.decimal_go]. cbv zeta. destruct (n <? 10)%Z; [reflexivity|].
  rewrite (IH _ (String _ acc)), (IH _ (String _ EmptyString)).
  generalize (Str.decimal_go fuel (n / 10) EmptyString). intros s.
  induction s as [|c s IHs]; [reflexivity|]. rewrite !append_cons. by rewrite IHs.
Qed.

Lemma digits_val_decimal_go (fuel : nat) (n : Z) :
  (0 ≤ n < 2 ^ Z.of_nat fuel)%Z →
  Str.digits_val_from 0 (Str.decimal_go fuel n EmptyString) = n.
Proof.
  revert n. induction fuel as [|fuel IH]; intros n Hn.
  - cbn in *. lia.
  - cbn [Str.decimal_go]. cbv zeta. destruct (n <? 10)%Z eqn:E.
    + cbn [Str.digits_val_from]. unfold Str.digit_val.
      rewrite Z.mod_small by lia. rewrite code_chr by lia. lia.
    + rewrite decimal_go_app, digits_val_from_app, IH.
      * cbn [Str.digits_val_from]. unfold Str.digit_val.
        assert (0 ≤ n mod 10 < 10)%Z by (apply Z.mod_pos_bound; lia).
        rewrite code_chr by lia. pose proof (Z.div_mod n 10). lia.
      * rewrite Nat2Z.inj_succ, Z.pow_succ_r in Hn by lia.
        split; [apply Z.div_pos; lia|].
        apply Z.div_lt_upper_bound; lia.
Qed.

Lemma digits_val_decimal (n : Z) : (0 ≤ n)%Z → Str.digits_val (Str.decimal n) = n.
Proof.
  intros Hn. apply digits_val_decimal_go. split; [done|].
  rewrite Nat2Z.inj_succ, Z2Nat.id by apply Z.log2_nonneg.
  destruct (decide (n = 0%Z)) as [->|]; [done|]. apply Z.log2_spec. lia.
Qed.

Lemma int_of_str_int_str (n : Z) (s : string) :
  Py.int_str n = Ok s → Py.int_of_str s = Ok n.
Proof.
  unfold Py.int_str. destruct (_ <=? _)%nat eqn:Hlen; [|discriminate].
  intros [= <-].
  pose proof (decimal_digits (Z.abs n)) as Hdigits.
  pose proof (decimal_nonempty (Z.abs n)) as Hnonempty.
  pose proof (digits_val_decimal (Z.abs n) ltac:(lia)) as Hval.
  unfold Py.int_of_str.
  destruct (n <? 0)%Z eqn:Hneg.
  - change ("-" +:+ Str.decimal (Z.abs n)) with (String "-" (Str.decimal (Z.abs n))).
    rewrite strip_number_minus by done. cbn [Py.take_sign].
    rewrite drop_underscores_digits by done.
    destruct (Str.decimal (Z.abs n)) as [|c ds] eqn:Hds; [done|].
    rewrite Hdigits, Hlen, Hval. cbn [andb cond_Zopp]. f_equal. lia.
  - rewrite append_nil, strip_number_digits, take_sign_digits by done.
    rewrite drop_underscores_digits by done.
    destruct (Str.decimal (Z.abs n)) as [|c ds] eqn:Hds; [done|].
    rewrite Hdigits, Hlen, Hval. cbn [andb cond_Zopp]. f_equal. lia.
Qed.

(** X24: the text of an int reads back as that int: when [str(n)] returns s
    (n has at most 4300 digits), [int(s)] is n, and the field normalizer under
    [int] turns the text s into n. *)
Theorem int_text_round_trip (n : Z) (s : string) :
  Py.int_str n = Ok s →
  Py.int_of_str s = Ok n ∧ safe_convert (PyStr s) (Some Py.int) = Ok (PyInt n).
Proof.
  intros Hs. pose proof (int_of_str_int_str n s Hs) as Hint. split; [done|].
  rewrite (safe_convert_not_blank (PyStr s) s _ eq_refl eq_refl
             (int_str_good_head n s Hs)).
  cbn [Py.int]. by rewrite Hint.
Qed.

Lemma int_text_round_trip_witness :
  Py.int_str (-2024) = Ok "-2024" ∧
  Py.int_of_str "-2024" = Ok (-2024)%Z ∧
  safe_convert (PyStr "-2024") (Some Py.int) = Ok (PyInt (-2024)).
Proof.
  assert (H : Py.int_str (-2024) = Ok "-2024") by (vm_compute; reflexivity).
  exact (conj H (int_text_round_trip (-2024) "-2024" H)).
Defined.

(** X25: an int cell of at most 4300 digits is never taken for a blank:
    without a conversion and under [int] it is returned as it is, under
    [float] it becomes the nearest float, or raises [OverflowError] when that
    is not finite. *)
Theorem safe_convert_of_int (n : Z) :
  Str.len (Str.decimal (Z.abs n)) ≤ Py.int_max_str_digits →
  safe_convert (PyInt n) None = Ok (PyInt n) ∧
  safe_convert (PyInt n) (Some Py.int) = Ok (PyInt n) ∧
  safe_convert (PyInt n) (Some Py.float) =
    match Py.float_of_Z n with
    | S754_infinity _ => Raise OverflowError
    | f => Ok (PyFloat f)
    end.
Proof.
  intros Hlen.
  assert (Hs : ∃ s, Py.int_str n = Ok s).
  { unfold Py.int_str. apply Nat.leb_le in Hlen. rewrite Hlen. eauto. }
  destruct Hs as [s Hs].
  repeat apply conj;
    rewrite (safe_convert_not_blank (PyInt n) s _ eq_refl Hs (int_str_good_head n s Hs));
    try reflexivity.
  cbn [Py.float]. unfold Py.float_of_int.
  by destruct (Py.float_of_Z n).
Qed.

Lemma safe_convert_of_int_witness :
  Str.len (Str.decimal (Z.abs 2024)) ≤ Py.int_max_str_digits ∧
  safe_convert (PyInt 2024) None = Ok (PyInt 2024) ∧
  safe_convert (PyInt 2024) (Some Py.int) = Ok (PyInt 2024) ∧
  safe_convert (PyInt 2024) (Some Py.float) =
    match Py.float_of_Z 2024 with
    | S754_infinity _ => Raise OverflowError
    | f => Ok (PyFloat f)
    end.
Proof.
  assert (H : Str.len (Str.decimal (Z.abs 2024)) ≤ Py.int_max_str_digits)
    by (vm_compute; lia).
  exact (conj H (safe_convert_of_int 2024 H)).
Defined.

Lemma coord_mask_raises_iff_witness :
  Haedat.coord_mask (PyFloat S754_nan) (PyInt 10) = Ok false.
Proof.
  apply (coord_mask_raises_iff (PyFloat S754_nan) (PyInt 10) TypeError).
  - left. reflexivity.
  - intros s. discriminate.
  - intros s. discriminate.
Defined.

(** ** [scripts/download_copernicus.py] *)

Section CopernicusFacts.

Import Copernicus.

Variable copernicusmarine_subset : string → gset string → gset string * option exn.
Variable subprocess_run : list string → gset string → gset string * option exn.
Variable open_w : string → gset string → gset string * option exn.
Variable environ_get : string → option string.

Lemma runs_of_app (t1 t2 : list event) : runs_of (t1 ++ t2) = runs_of t1 ++ runs_of t2.
Proof. apply omap_app. Qed.

Ltac runs_step := rewrite <- ?app_assoc; cbn [app]; rewrite runs_of_app.

Lemma exec_bind {A B} (m : cmd A) (f : A → cmd B) (w : world) :
  exec (m ≫= f) w =
  match exec m w with
  | (Done a, w') => exec (f a) w'
  | (Raised e, w') => (Raised e, w')
  end.
Proof. reflexivity. Qed.

Ltac exec_step :=
  cbn [exec mbind cmd_bind mret cmd_ret emit print exists_ try_ raise call files trace
       fst snd negb].

(** The download step never raises, and changes the files only through the
    download itself. *)
Lemma exec_download_sst_data (w : world) :
  ∃ t fs,
    exec (download_sst_data copernicusmarine_subset) w =
      (Done tt, {| files := fs; trace := trace w ++ t |}) ∧
    runs_of t = [] ∧
    (fs = files w ∨ fs = (copernicusmarine_subset "data/sst_last_month.nc" (files w)).1).
Proof.
  unfold download_sst_data. exec_step.
  destruct (bool_decide _); exec_step.
  - eexists _, _. repeat apply conj; [reflexivity|reflexivity|by left].
  - destruct (copernicusmarine_subset _ _) as [fs [e|]]; exec_step;
      rewrite <- ?app_assoc; eexists _, _;
      (repeat apply conj; [reflexivity|reflexivity|by right]).
Qed.

(** The conversion step without its source file. *)
Lemma exec_convert_to_geotiff_no_source (w : world) :
  "data/sst_monthly.tif" ∉ files w → "sst_last_month.nc" ∉ files w →
  exec (convert_to_geotiff subprocess_run) w =
  (Done tt, {| files := files w; trace := trace w ++ [Print SourceNotFound] |}).
Proof.
  intros Htif Hnc. unfold convert_to_geotiff. exec_step.
  rewrite (bool_decide_eq_false_2 _ Htif). exec_step.
  by rewrite (bool_decide_eq_false_2 _ Hnc).
Qed.

(** The load step without the GeoTIFF. *)
Lemma exec_load_to_supabase_no_tif (w : world) :
  "data/sst_monthly.tif" ∉ files w →
  exec (load_to_supabase subprocess_run open_w environ_get) w =
  (Done tt, {| files := files w; trace := trace w ++ [Print TifNotFound] |}).
Proof.
  intros Htif. unfold load_to_supabase. exec_step.
  by rewrite (bool_decide_eq_false_2 _ Htif).
Qed.

(** X26: the download writes "data/sst_last_month.nc" and the conversion
    looks for "sst_last_month.nc": in a directory that holds neither
    "sst_last_month.nc" nor "data/sst_monthly.tif", and with a download that
    creates at most the file it is asked for, [main] runs no program at all,
    whether the download succeeds or not: the conversion reports its source
    as not found, the load reports the GeoTIFF as not found, and [main]
    returns. *)
Theorem fresh_directory_runs_nothing (w : world) :
  "sst_last_month.nc" ∉ files w →
  "data/sst_monthly.tif" ∉ files w →
  (∀ fs, (copernicusmarine_subset "data/sst_last_month.nc" fs).1 ⊆
         {[ "data/sst_last_month.nc" ]} ∪ fs) →
  let out :=
    exec (main copernicusmarine_subset subprocess_run open_w environ_get) w in
  out.1 = Done tt ∧
  runs_of (trace out.2) = runs_of (trace w) ∧
  ∃ t, trace out.2 = trace w ++ t ++ [Print SourceNotFound; Print TifNotFound].
Proof.
  intros Hnc Htif Hsubset. cbv zeta. unfold main.
  cbn [exec mbind cmd_bind emit print files trace].
  rewrite (exec_bind (download_sst_data copernicusmarine_subset)).
  match goal with
  | |- context [exec (download_sst_data _) ?w0] =>
      destruct (exec_download_sst_data w0) as (t & fs & -> & Hruns & Hfs)
  end.
  cbn [files trace] in Hfs.
  rewrite (exec_bind (convert_to_geotiff subprocess_run)).
  assert (Hfresh : ("sst_last_month.nc" ∉ fs) ∧ ("data/sst_monthly.tif" ∉ fs)).
  { destruct Hfs as [->| ->]; [done|].
    pose proof (Hsubset (files w)) as Hsub.
    split; intros Hin; apply Hsub, elem_of_union in Hin as [Hin%elem_of_singleton|Hin];
      done. }
  destruct Hfresh as [Hnc' Htif'].
  rewrite exec_convert_to_geotiff_no_source by done.
  rewrite exec_load_to_supabase_no_tif by done.
  cbn [fst snd files trace]. repeat apply conj; [done| |].
  - rewrite !runs_of_app, Hruns. cbn. by rewrite !app_nil_r.
  - exists ([Print Banner; Print Rule; LoadDotenv; Print LoginVerified] ++ t).
    by rewrite <- !app_assoc.
Qed.

(** X27: the load step runs at most two programs, [raster2pgsql] and then
    [psql], and only behind its three guards: the GeoTIFF exists, the
    variable SUPABASE_DB_URL is set to a text that starts with
    "postgresql://", and the SQL file could be opened. [psql] is run only
    when [raster2pgsql] has returned without an exception, and it is given
    that text. *)
Theorem load_to_supabase_runs (w : world) :
  let out := exec (load_to_supabase subprocess_run open_w environ_get) w in
  ∃ rs : list (list string),
    runs_of (trace out.2) = runs_of (trace w) ++ rs ∧
    (rs = [] ∨
     ∃ db_url : string,
       "data/sst_monthly.tif" ∈ files w ∧
       environ_get "SUPABASE_DB_URL" = Some db_url ∧
       starts_with "postgresql://" db_url = true ∧
       (open_w "sst_data.sql" (files w)).2 = None ∧
       (rs = [raster2pgsql "data/sst_monthly.tif"] ∨
        rs = [raster2pgsql "data/sst_monthly.tif"; psql db_url] ∧
        (subprocess_run (raster2pgsql "data/sst_monthly.tif")
           (open_w "sst_data.sql" (files w)).1).2 = None)).
Proof.
  cbv zeta. unfold load_to_supabase. exec_step.
  destruct (bool_decide ("data/sst_monthly.tif" ∈ files w)) eqn:Htif; exec_step.
  2:{ exists []. runs_step. split; [reflexivity|by left]. }
  apply bool_decide_eq_true_1 in Htif.
  destruct (environ_get "SUPABASE_DB_URL") as [[|c url]|] eqn:Henv; exec_step.
  1,3: exists []; runs_step; split; [reflexivity|by left].
  destruct (starts_with "postgresql://" (String c url)) eqn:Hurl; exec_step.
  2:{ exists []. runs_step. split; [reflexivity|by left]. }
  destruct (open_w "sst_data.sql" (files w)) as [fs1 [e1|]] eqn:Hopen; exec_step.
  { exists []. destruct e1; exec_step; runs_step; (split; [reflexivity|by left]). }
  destruct (subprocess_run (raster2pgsql "data/sst_monthly.tif") fs1)
    as [fs2 [e2|]] eqn:Hraster; exec_step.
  { exists [raster2pgsql "data/sst_monthly.tif"].
    destruct e2; exec_step; runs_step; (split; [reflexivity|]);
      right; exists (String c url); repeat apply conj; try done; by left. }
  exists [raster2pgsql "data/sst_monthly.tif"; psql (String c url)].
  destruct (subprocess_run (psql (String c url)) fs2) as [fs3 [e3|]] eqn:Hpsql;
    exec_step; [destruct e3; exec_step|]; runs_step; (split; [reflexivity|]);
    right; exists (String c url); repeat apply conj; try done; by right.
Qed.

Lemma convert_to_geotiff_catches (w : world) (e : exn) :
  (exec (convert_to_geotiff subprocess_run) w).1 = Raised e → e = OtherException.
Proof.
  unfold convert_to_geotiff. exec_step.
  repeat (match goal with
          | |- context [bool_decide ?P] => destruct (bool_decide P)
          | |- context [subprocess_run ?a ?b] => destruct (subprocess_run a b) as [? [[]|]]
          end; exec_step); try discriminate.
  by intros [= <-].
Qed.

Lemma load_to_supabase_catches (w : world) (e : exn) :
  (exec (load_to_supabase subprocess_run open_w environ_get) w).1 = Raised e →
  e = OtherException.
Proof.
  unfold load_to_supabase. exec_step.
  destruct (bool_decide _); exec_step; [|discriminate].
  destruct (environ_get _) as [[|c url]|]; exec_step; try discriminate.
  destruct (starts_with _ _); exec_step; [|discriminate].
  repeat (match goal with
          | |- context [open_w ?a ?b] => destruct (open_w a b) as [? [[]|]]
          | |- context [subprocess_run ?a ?b] => destruct (subprocess_run a b) as [? [[]|]]
          end; exec_step); try discriminate; by intros [= <-].
Qed.

(** X28: the download step never raises, whatever the download does; of the
    conversion step, the load step and [main], none lets a
    [CalledProcessError] or a [FileNotFoundError] escape: an exception that
    leaves them is of another class. *)
Theorem copernicus_handlers (w : world) :
  (exec (download_sst_data copernicusmarine_subset) w).1 = Done tt ∧
  ∀ e : exn,
    (exec (convert_to_geotiff subprocess_run) w).1 = Raised e ∨
    (exec (load_to_supabase subprocess_run open_w environ_get) w).1 = Raised e ∨
    (exec (main copernicusmarine_subset subprocess_run open_w environ_get) w).1
      = Raised e →
    e = OtherException.
Proof.
  split; [by destruct (exec_download_sst_data w) as (t & fs & -> & _)|].
  intros e [H|[H|H]].
  - by apply (convert_to_geotiff_catches w).
  - by apply (load_to_supabase_catches w).
  - revert H. unfold main. cbn [exec mbind cmd_bind emit print files trace].
    rewrite (exec_bind (download_sst_data copernicusmarine_subset)).
    match goal with
    | |- context [exec (download_sst_data _) ?w0] =>
        destruct (exec_download_sst_data w0) as (t & fs & -> & _)
    end.
    rewrite (exec_bind (convert_to_geotiff subprocess_run)).
    match goal with
    | |- context [exec (convert_to_geotiff _) ?w0] =>
        pose proof (convert_to_geotiff_catches w0 e) as Hconvert;
        destruct (exec (convert_to_geotiff subprocess_run) w0) as [[[]|e'] w1]
    end.
    + apply load_to_supabase_catches.
    + exact Hconvert.
Qed.

End CopernicusFacts.

Lemma fresh_directory_runs_nothing_witness :
  let w := {| Copernicus.files := ∅; Copernicus.trace := [] |} in
  let out :=
    Copernicus.exec
      (Copernicus.main Copernicus.writes_output Copernicus.no_effect
         Copernicus.no_effect (λ _, Some "postgresql://host/db")) w in
  out.1 = Copernicus.Done tt ∧
  Copernicus.runs_of (Copernicus.trace out.2) = Copernicus.runs_of (Copernicus.trace w) ∧
  ∃ t, Copernicus.trace out.2 =
       Copernicus.trace w ++ t ++
       [Copernicus.Print Copernicus.SourceNotFound; Copernicus.Print Copernicus.TifNotFound].
Proof.
  apply (fresh_directory_runs_nothing Copernicus.writes_output Copernicus.no_effect
           Copernicus.no_effect (λ _, Some "postgresql://host/db")
           {| Copernicus.files := ∅; Copernicus.trace := [] |}).
  - cbn. set_solver.
  - cbn. set_solver.
  - intros fs. cbn. set_solver.
Defined.
